(** * Cocoro Air sensor platform: a shallow embedding of
      [custom_components/cocoro_air/sensor.py] and its specification.

    The platform builds eight Home Assistant entities over one shared API
    client and refreshes each of them by polling that client.  The embedding
    keeps the shape of the Python code: values are Python objects, the body
    of every [async_update] is a computation in a state-and-exception monad,
    and [try ... except Exception] is a handler of that monad. *)

From Stdlib Require Import ZArith Bool String Floats.SpecFloat.
From stdpp Require Import base gmap strings list.

Local Open Scope Z_scope.

(** ** Python objects *)

Module Py.

(** Exception classes.  [except Exception] catches the subclasses of
    [Exception] only; [CancelledError] (since Python 3.8), [KeyboardInterrupt]
    and [SystemExit] derive from [BaseException] directly. *)
Inductive exn : Type :=
  | KeyError (key : string)
  | TypeError
  | ValueError
  | OverflowError
  | ZeroDivisionError
  | OtherException (name : string)
  | CancelledError
  | KeyboardInterrupt
  | SystemExit.

Definition isinstance_Exception (x : exn) : bool :=
  match x with
  | CancelledError | KeyboardInterrupt | SystemExit => false
  | _ => true
  end.

(** The outcome of evaluating an expression: a value, or a raised exception. *)
Inductive result (A : Type) : Type :=
  | Ok (a : A)
  | Raise (x : exn).
Arguments Ok {A} a.
Arguments Raise {A} x.

(** The values a sensor field can hold.  A [float] is an IEEE 754 binary64
    number, given by its sign, mantissa and exponent. *)
Inductive val : Type :=
  | None_
  | Bool (b : bool)
  | Int (z : Z)
  | Float (f : spec_float)
  | Str (s : string).

(** *** binary64 arithmetic *)

Definition prec : Z := 53.
Definition emax : Z := 1024.

(** The float nearest to [m * 2^e] (the value of a float literal). *)
Definition float_of_dyadic (m e : Z) : spec_float :=
  binary_normalize prec emax m e false.

(** An integer as an exact (unnormalised) significand with exponent 0. *)
Definition float_of_Z (z : Z) : spec_float :=
  match z with
  | Z0 => S754_zero false
  | Zpos p => S754_finite false p 0
  | Zneg p => S754_finite true p 0
  end.

Definition is_finite (f : spec_float) : bool :=
  match f with
  | S754_zero _ | S754_finite _ _ _ => true
  | _ => false
  end.

(** [int.__truediv__]: the correctly rounded quotient of two integers;
    [OverflowError] when it does not fit a float. *)
Definition int_truediv (a b : Z) : result val :=
  if b =? 0 then Raise ZeroDivisionError
  else
    let q := SFdiv prec emax (float_of_Z a) (float_of_Z b) in
    if is_finite q then Ok (Float q) else Raise OverflowError.

(** [float.__truediv__] with an [int] divisor, which is converted first. *)
Definition float_truediv (x : spec_float) (b : Z) : result val :=
  if b =? 0 then Raise ZeroDivisionError
  else Ok (Float (SFdiv prec emax x (float_of_Z b))).

(** [v / d] for an integer literal [d]; [bool] is a subclass of [int]. *)
Definition truediv (v : val) (d : Z) : result val :=
  match v with
  | Int z => int_truediv z d
  | Bool b => int_truediv (if b then 1 else 0) d
  | Float x => float_truediv x d
  | None_ | Str _ => Raise TypeError
  end.

(** The integer nearest to [m * 2^e], a tie going to the even neighbour. *)
Definition round_half_even (m e : Z) : Z :=
  if 0 <=? e then m * 2 ^ e
  else
    let d := 2 ^ (- e) in
    let q := m / d in
    match 2 * (m mod d) ?= d with
    | Lt => q
    | Gt => q + 1
    | Eq => if Z.even q then q else q + 1
    end.

(** [float.__round__] without [ndigits]. *)
Definition float_round (x : spec_float) : result val :=
  match x with
  | S754_nan => Raise ValueError
  | S754_infinity _ => Raise OverflowError
  | S754_zero _ => Ok (Int 0)
  | S754_finite s m e => Ok (Int (round_half_even (cond_Zopp s (Zpos m)) e))
  end.

(** The builtin [round(v)]. *)
Definition round (v : val) : result val :=
  match v with
  | Int z => Ok (Int z)
  | Bool b => Ok (Int (if b then 1 else 0))
  | Float x => float_round x
  | None_ | Str _ => Raise TypeError
  end.

(** [d[key]] on a [dict]. *)
Definition getitem {V} (d : gmap string V) (key : string) : result V :=
  match d !! key with
  | Some v => Ok v
  | None => Raise (KeyError key)
  end.

(** *** Statements

    A block of statements runs on a state [S] and returns normally or
    raises; the state reached when it raises is kept. *)
Definition M (S A : Type) : Type := S -> result A * S.

Definition ret {S A} (a : A) : M S A := fun st => (Ok a, st).

Definition bind {S A B} (m : M S A) (k : A -> M S B) : M S B :=
  fun st =>
    match m st with
    | (Ok a, st') => k a st'
    | (Raise x, st') => (Raise x, st')
    end.

(** An expression that may raise, evaluated without touching the state. *)
Definition eval {S A} (r : result A) : M S A := fun st => (r, st).

(** [try: body except Exception as e: handler(e)]: an exception outside the
    [Exception] hierarchy is not caught. *)
Definition try_except_Exception {S A} (body : M S A) (handler : exn -> M S A)
  : M S A :=
  fun st =>
    match body st with
    | (Ok a, st') => (Ok a, st')
    | (Raise x, st') =>
        if isinstance_Exception x then handler x st' else (Raise x, st')
    end.

End Py.

Notation "x <- m ;; k" := (Py.bind m (fun x => k))
  (at level 100, m at next level, right associativity).

(** ** The platform *)

(** Units of measurement of the host framework ([homeassistant.const]). *)
Inductive Unit_ : Type :=
  | UnitOfTemperature_CELSIUS
  | PERCENTAGE
  | CONCENTRATION_MICROGRAMS_PER_CUBIC_METER.

(** The eight entity classes of the module. *)
Inductive SensorClass : Type :=
  | CocoroAirTemperatureSensor
  | CocoroAirHumiditySensor
  | CocoroAirWaterTankSensor
  | CocoroAirPM25Sensor
  | CocoroAirCleanedAirVolumeSensor
  | CocoroAirOdorLevelSensor
  | CocoroAirDustLevelSensor
  | CocoroAirCleanlinessLevelSensor.

#[global] Instance SensorClass_eq_dec : EqDecision SensorClass.
Proof. solve_decision. Defined.

(** Class attributes. *)
Definition _attr_name (c : SensorClass) : string :=
  match c with
  | CocoroAirTemperatureSensor => "Temperature"
  | CocoroAirHumiditySensor => "Humidity"
  | CocoroAirWaterTankSensor => "Water tank"
  | CocoroAirPM25Sensor => "PM2.5"
  | CocoroAirCleanedAirVolumeSensor => "Cleaned air volume"
  | CocoroAirOdorLevelSensor => "Odor level"
  | CocoroAirDustLevelSensor => "Dust level"
  | CocoroAirCleanlinessLevelSensor => "Cleanliness level"
  end.

Definition _attr_native_unit_of_measurement (c : SensorClass) : option Unit_ :=
  match c with
  | CocoroAirTemperatureSensor => Some UnitOfTemperature_CELSIUS
  | CocoroAirHumiditySensor => Some PERCENTAGE
  | CocoroAirPM25Sensor => Some CONCENTRATION_MICROGRAMS_PER_CUBIC_METER
  | _ => None
  end.

Definition _attr_icon (c : SensorClass) : string :=
  match c with
  | CocoroAirTemperatureSensor => "mdi:thermometer"
  | CocoroAirHumiditySensor => "mdi:water-percent"
  | CocoroAirWaterTankSensor => "mdi:water"
  | CocoroAirPM25Sensor => "mdi:air-filter"
  | CocoroAirCleanedAirVolumeSensor => "mdi:air-purifier"
  | CocoroAirOdorLevelSensor => "mdi:scent"
  | CocoroAirDustLevelSensor => "mdi:blur"
  | CocoroAirCleanlinessLevelSensor => "mdi:air-purifier"
  end.

Inductive Level : Type := WARNING.

(** A record handed to [_LOGGER]: level, format string and its argument. *)
Record LogRecord : Type := mkLogRecord {
  levelname : Level;
  msg : string;
  args : Py.exn }.

Section Platform.

Set Implicit Arguments.

(** The API client is an external collaborator.  [DeviceInfo] is the opaque
    structure it hands to the device registry, [RawSnapshot] what one poll
    returns, and [World] the state the client lives in (its session and the
    device behind it), which a poll may change.  [device_id] is the string
    the f-strings of the constructors format it to. *)
Variable DeviceInfo : Type.
Variable RawSnapshot : Type.
Variable World : Type.

Record CocoroAirApi : Type := mkApi {
  device_id : string;
  device_info : DeviceInfo;
  update : World -> Py.result RawSnapshot * World;
  get_sensor_data : RawSnapshot -> Py.result (gmap string Py.val) }.

(** An entity object.  [_attr_state] is the attribute the host displays:
    [_attr_native_value] of the seven [SensorEntity] classes and [_attr_is_on]
    of the [BinarySensorEntity] class [CocoroAirWaterTankSensor]. *)
Record Entity : Type := mkEntity {
  cls : SensorClass;
  _api : CocoroAirApi;
  _attr_unique_id : string;
  _attr_device_info : DeviceInfo;
  _attr_state : Py.val }.

(** *** Constructors *)

Definition CocoroAirTemperatureSensor_init (api : CocoroAirApi) : Entity :=
  {| cls := CocoroAirTemperatureSensor;
     _api := api;
     _attr_unique_id := device_id api +:+ "_temperature";
     _attr_device_info := device_info api;
     _attr_state := Py.None_ |}.

Definition CocoroAirHumiditySensor_init (api : CocoroAirApi) : Entity :=
  {| cls := CocoroAirHumiditySensor;
     _api := api;
     _attr_unique_id := device_id api +:+ "_humidity";
     _attr_device_info := device_info api;
     _attr_state := Py.None_ |}.

Definition CocoroAirWaterTankSensor_init (api : CocoroAirApi) : Entity :=
  {| cls := CocoroAirWaterTankSensor;
     _api := api;
     _attr_unique_id := device_id api +:+ "_water_tank";
     _attr_device_info := device_info api;
     _attr_state := Py.None_ |}.

Definition CocoroAirPM25Sensor_init (api : CocoroAirApi) : Entity :=
  {| cls := CocoroAirPM25Sensor;
     _api := api;
     _attr_unique_id := device_id api +:+ "_pm25";
     _attr_device_info := device_info api;
     _attr_state := Py.None_ |}.

Definition CocoroAirCleanedAirVolumeSensor_init (api : CocoroAirApi) : Entity :=
  {| cls := CocoroAirCleanedAirVolumeSensor;
     _api := api;
     _attr_unique_id := device_id api +:+ "_cleaned_air_volume";
     _attr_device_info := device_info api;
     _attr_state := Py.None_ |}.

Definition CocoroAirOdorLevelSensor_init (api : CocoroAirApi) : Entity :=
  {| cls := CocoroAirOdorLevelSensor;
     _api := api;
     _attr_unique_id := device_id api +:+ "_odor_level";
     _attr_device_info := device_info api;
     _attr_state := Py.None_ |}.

Definition CocoroAirDustLevelSensor_init (api : CocoroAirApi) : Entity :=
  {| cls := CocoroAirDustLevelSensor;
     _api := api;
     _attr_unique_id := device_id api +:+ "_dust_level";
     _attr_device_info := device_info api;
     _attr_state := Py.None_ |}.

Definition CocoroAirCleanlinessLevelSensor_init (api : CocoroAirApi) : Entity :=
  {| cls := CocoroAirCleanlinessLevelSensor;
     _api := api;
     _attr_unique_id := device_id api +:+ "_cleanliness_level";
     _attr_device_info := device_info api;
     _attr_state := Py.None_ |}.

(** *** Running a method

    A method runs on [self], the world the API client acts on and the
    records logged so far; it returns normally or raises. *)
Record State : Type := mkState {
  self : Entity;
  world : World;
  log : list LogRecord }.

Definition M (A : Type) : Type := Py.M State A.

(** [await self._api.update()] *)
Definition await_api_update : M RawSnapshot :=
  fun st =>
    let '(r, w) := update (_api (self st)) (world st) in
    (r, {| self := self st; world := w; log := log st |}).

(** [self._api.get_sensor_data(raw_data)] *)
Definition api_get_sensor_data (raw_data : RawSnapshot) : M (gmap string Py.val) :=
  fun st => (get_sensor_data (_api (self st)) raw_data, st).

(** [self._attr_native_value = v] (or [self._attr_is_on = v]): the object
    [e] with its state attribute rebound, and the statement on [self]. *)
Definition setattr_state (e : Entity) (v : Py.val) : Entity :=
  {| cls := cls e;
     _api := _api e;
     _attr_unique_id := _attr_unique_id e;
     _attr_device_info := _attr_device_info e;
     _attr_state := v |}.

Definition set_attr_state (v : Py.val) : M unit :=
  fun st =>
    (Py.Ok tt,
     {| self := setattr_state (self st) v; world := world st; log := log st |}).

(** [_LOGGER.warning(fmt, e)] *)
Definition _LOGGER_warning (fmt : string) (e : Py.exn) : M unit :=
  fun st =>
    (Py.Ok tt,
     {| self := self st;
        world := world st;
        log := log st ++ [mkLogRecord WARNING fmt e] |}).

(** *** [async_update] of the eight classes

    Each method is a [try] block and its handler; the [try] block is given a
    name of its own, as a refresh is successful when that block completes. *)

Definition CocoroAirTemperatureSensor_try : M unit :=
  raw_data <- await_api_update ;;
  data <- api_get_sensor_data raw_data ;;
  v <- Py.eval (Py.getitem data "temperature") ;;
  set_attr_state v.

Definition CocoroAirTemperatureSensor_async_update : M unit :=
  Py.try_except_Exception CocoroAirTemperatureSensor_try
    (fun e => _LOGGER_warning "Failed to update sensor data: %s" e).

Definition CocoroAirHumiditySensor_try : M unit :=
  raw_data <- await_api_update ;;
  data <- api_get_sensor_data raw_data ;;
  v <- Py.eval (Py.getitem data "humidity") ;;
  set_attr_state v.

Definition CocoroAirHumiditySensor_async_update : M unit :=
  Py.try_except_Exception CocoroAirHumiditySensor_try
    (fun e => _LOGGER_warning "Failed to update sensor data: %s" e).

Definition CocoroAirWaterTankSensor_try : M unit :=
  raw_data <- await_api_update ;;
  data <- api_get_sensor_data raw_data ;;
  v <- Py.eval (Py.getitem data "water_tank") ;;
  set_attr_state v.

Definition CocoroAirWaterTankSensor_async_update : M unit :=
  Py.try_except_Exception CocoroAirWaterTankSensor_try
    (fun e => _LOGGER_warning "Failed to update sensor data: %s" e).

Definition CocoroAirPM25Sensor_try : M unit :=
  raw_data <- await_api_update ;;
  data <- api_get_sensor_data raw_data ;;
  v <- Py.eval (Py.getitem data "pm25") ;;
  set_attr_state v.

Definition CocoroAirPM25Sensor_async_update : M unit :=
  Py.try_except_Exception CocoroAirPM25Sensor_try
    (fun e => _LOGGER_warning "Failed to update sensor data: %s" e).

Definition CocoroAirCleanedAirVolumeSensor_try : M unit :=
  raw_data <- await_api_update ;;
  data <- api_get_sensor_data raw_data ;;
  v <- Py.eval (Py.getitem data "cleaned_air_volume") ;;
  set_attr_state v.

Definition CocoroAirCleanedAirVolumeSensor_async_update : M unit :=
  Py.try_except_Exception CocoroAirCleanedAirVolumeSensor_try
    (fun e => _LOGGER_warning "Failed to update sensor data: %s" e).

Definition CocoroAirOdorLevelSensor_try : M unit :=
  raw_data <- await_api_update ;;
  data <- api_get_sensor_data raw_data ;;
  raw_value <- Py.eval (Py.getitem data "odor_level") ;;
  match raw_value with
  | Py.None_ => set_attr_state Py.None_
  | _ =>
      q <- Py.eval (Py.truediv raw_value 33) ;;
      n <- Py.eval (Py.round q) ;;
      set_attr_state n
  end.

Definition CocoroAirOdorLevelSensor_async_update : M unit :=
  Py.try_except_Exception CocoroAirOdorLevelSensor_try
    (fun e => _LOGGER_warning "Failed to update sensor data: %s" e).

Definition CocoroAirDustLevelSensor_try : M unit :=
  raw_data <- await_api_update ;;
  data <- api_get_sensor_data raw_data ;;
  raw_value <- Py.eval (Py.getitem data "dust_level") ;;
  match raw_value with
  | Py.None_ => set_attr_state Py.None_
  | _ =>
      q <- Py.eval (Py.truediv raw_value 25) ;;
      n <- Py.eval (Py.round q) ;;
      set_attr_state n
  end.

Definition CocoroAirDustLevelSensor_async_update : M unit :=
  Py.try_except_Exception CocoroAirDustLevelSensor_try
    (fun e => _LOGGER_warning "Failed to update sensor data: %s" e).

Definition CocoroAirCleanlinessLevelSensor_try : M unit :=
  raw_data <- await_api_update ;;
  data <- api_get_sensor_data raw_data ;;
  raw_value <- Py.eval (Py.getitem data "cleanliness_level") ;;
  match raw_value with
  | Py.None_ => set_attr_state Py.None_
  | _ =>
      q <- Py.eval (Py.truediv raw_value 25) ;;
      n <- Py.eval (Py.round q) ;;
      set_attr_state n
  end.

Definition CocoroAirCleanlinessLevelSensor_async_update : M unit :=
  Py.try_except_Exception CocoroAirCleanlinessLevelSensor_try
    (fun e => _LOGGER_warning "Failed to update sensor data: %s" e).

(** Method resolution: the constructor, the [try] block and [async_update]
    of a class. *)
Definition init (c : SensorClass) : CocoroAirApi -> Entity :=
  match c with
  | CocoroAirTemperatureSensor => CocoroAirTemperatureSensor_init
  | CocoroAirHumiditySensor => CocoroAirHumiditySensor_init
  | CocoroAirWaterTankSensor => CocoroAirWaterTankSensor_init
  | CocoroAirPM25Sensor => CocoroAirPM25Sensor_init
  | CocoroAirCleanedAirVolumeSensor => CocoroAirCleanedAirVolumeSensor_init
  | CocoroAirOdorLevelSensor => CocoroAirOdorLevelSensor_init
  | CocoroAirDustLevelSensor => CocoroAirDustLevelSensor_init
  | CocoroAirCleanlinessLevelSensor => CocoroAirCleanlinessLevelSensor_init
  end.

Definition try_block (c : SensorClass) : M unit :=
  match c with
  | CocoroAirTemperatureSensor => CocoroAirTemperatureSensor_try
  | CocoroAirHumiditySensor => CocoroAirHumiditySensor_try
  | CocoroAirWaterTankSensor => CocoroAirWaterTankSensor_try
  | CocoroAirPM25Sensor => CocoroAirPM25Sensor_try
  | CocoroAirCleanedAirVolumeSensor => CocoroAirCleanedAirVolumeSensor_try
  | CocoroAirOdorLevelSensor => CocoroAirOdorLevelSensor_try
  | CocoroAirDustLevelSensor => CocoroAirDustLevelSensor_try
  | CocoroAirCleanlinessLevelSensor => CocoroAirCleanlinessLevelSensor_try
  end.

Definition async_update (c : SensorClass) : M unit :=
  match c with
  | CocoroAirTemperatureSensor => CocoroAirTemperatureSensor_async_update
  | CocoroAirHumiditySensor => CocoroAirHumiditySensor_async_update
  | CocoroAirWaterTankSensor => CocoroAirWaterTankSensor_async_update
  | CocoroAirPM25Sensor => CocoroAirPM25Sensor_async_update
  | CocoroAirCleanedAirVolumeSensor => CocoroAirCleanedAirVolumeSensor_async_update
  | CocoroAirOdorLevelSensor => CocoroAirOdorLevelSensor_async_update
  | CocoroAirDustLevelSensor => CocoroAirDustLevelSensor_async_update
  | CocoroAirCleanlinessLevelSensor => CocoroAirCleanlinessLevelSensor_async_update
  end.

(** [await entity.async_update()], as the host calls it on the entity [e]:
    the outcome, the entity afterwards, the world and the log. *)
Definition refresh (e : Entity) (w : World) (l : list LogRecord)
  : Py.result unit * State :=
  async_update (cls e) {| self := e; world := w; log := l |}.

(** *** Platform setup

    [DOMAIN] is imported from the package's [__init__], [hass.data] is the
    host's registry and [async_add_entities] its registration callback, which
    acts on the host's own state [Host]. *)
Variable DOMAIN : string.
Variable Host : Type.

Record ConfigEntry : Type := mkConfigEntry { entry_id : string }.

Record HomeAssistant : Type := mkHomeAssistant {
  data : gmap string (gmap string (gmap string CocoroAirApi)) }.

Definition async_setup_entry (hass : HomeAssistant) (entry : ConfigEntry)
    (async_add_entities : list Entity -> Py.M Host unit) : Py.M Host unit :=
  by_domain <- Py.eval (Py.getitem (data hass) DOMAIN) ;;
  by_entry <- Py.eval (Py.getitem by_domain (entry_id entry)) ;;
  cocoro_air_api <- Py.eval (Py.getitem by_entry "cocoro_air_api") ;;
  let entities :=
    [ CocoroAirTemperatureSensor_init cocoro_air_api;
      CocoroAirHumiditySensor_init cocoro_air_api;
      CocoroAirWaterTankSensor_init cocoro_air_api;
      CocoroAirPM25Sensor_init cocoro_air_api;
      CocoroAirCleanedAirVolumeSensor_init cocoro_air_api;
      CocoroAirOdorLevelSensor_init cocoro_air_api;
      CocoroAirDustLevelSensor_init cocoro_air_api;
      CocoroAirCleanlinessLevelSensor_init cocoro_air_api ] in
  async_add_entities entities.

(** *** The host's polling

    The host keeps the registered entities and polls them one at a time:
    polling the entity at index [i] runs its [async_update] and stores the
    object back. *)
Record Registered : Type := mkRegistered {
  entities : list Entity;
  reg_world : World;
  reg_log : list LogRecord }.

Definition poll (i : nat) (p : Registered) : Py.result unit * Registered :=
  match entities p !! i with
  | None => (Py.Ok tt, p)
  | Some e =>
      let '(r, st) := refresh e (reg_world p) (reg_log p) in
      (r, {| entities := <[i := self st]> (entities p);
             reg_world := world st;
             reg_log := log st |})
  end.

End Platform.

Unset Implicit Arguments.

(** ** What a class reads and displays

    The eight methods differ in the key they read and in what they do with
    the value; the two tables below name both, and [try_block_run] checks
    them against the methods. *)

(** The key of the mapping a class reads. *)
Definition field_name (c : SensorClass) : string :=
  match c with
  | CocoroAirTemperatureSensor => "temperature"
  | CocoroAirHumiditySensor => "humidity"
  | CocoroAirWaterTankSensor => "water_tank"
  | CocoroAirPM25Sensor => "pm25"
  | CocoroAirCleanedAirVolumeSensor => "cleaned_air_volume"
  | CocoroAirOdorLevelSensor => "odor_level"
  | CocoroAirDustLevelSensor => "dust_level"
  | CocoroAirCleanlinessLevelSensor => "cleanliness_level"
  end.

(** The suffix a class appends to the device id. *)
Definition suffix (c : SensorClass) : string :=
  match c with
  | CocoroAirTemperatureSensor => "_temperature"
  | CocoroAirHumiditySensor => "_humidity"
  | CocoroAirWaterTankSensor => "_water_tank"
  | CocoroAirPM25Sensor => "_pm25"
  | CocoroAirCleanedAirVolumeSensor => "_cleaned_air_volume"
  | CocoroAirOdorLevelSensor => "_odor_level"
  | CocoroAirDustLevelSensor => "_dust_level"
  | CocoroAirCleanlinessLevelSensor => "_cleanliness_level"
  end.

(** The classes in the order the setup routine builds them. *)
Definition classes : list SensorClass :=
  [ CocoroAirTemperatureSensor; CocoroAirHumiditySensor;
    CocoroAirWaterTankSensor; CocoroAirPM25Sensor;
    CocoroAirCleanedAirVolumeSensor; CocoroAirOdorLevelSensor;
    CocoroAirDustLevelSensor; CocoroAirCleanlinessLevelSensor ].

(** The expression [round(v / d)]. *)
Definition round_div (v : Py.val) (d : Z) : Py.result Py.val :=
  match Py.truediv v d with
  | Py.Ok q => Py.round q
  | Py.Raise x => Py.Raise x
  end.

(** [round(v / d) if v is not None else None] *)
Definition scaled (d : Z) (v : Py.val) : Py.result Py.val :=
  match v with
  | Py.None_ => Py.Ok Py.None_
  | _ => round_div v d
  end.

(** The value a class assigns for the raw value [v]. *)
Definition displayed (c : SensorClass) (v : Py.val) : Py.result Py.val :=
  match c with
  | CocoroAirOdorLevelSensor => scaled 33 v
  | CocoroAirDustLevelSensor => scaled 25 v
  | CocoroAirCleanlinessLevelSensor => scaled 25 v
  | _ => Py.Ok v
  end.

(** The format string of the warning and the record it leaves. *)
Definition warning_of (x : Py.exn) : LogRecord :=
  mkLogRecord WARNING "Failed to update sensor data: %s" x.

(** The exact value of a finite float [q] is [k + 1/2]. *)
Definition halfway (q : spec_float) (k : Z) : Prop :=
  match q with
  | S754_finite s m e =>
      e < 0 /\ 2 * cond_Zopp s (Zpos m) = (2 * k + 1) * 2 ^ (- e)
  | _ => False
  end.

(** The fetch of entity [e] from the world [w] raises [x]: [update()] does,
    or it returns a snapshot on which [get_sensor_data] does. *)
Definition fetch_raises {DeviceInfo RawSnapshot World : Type}
    (e : Entity DeviceInfo RawSnapshot World) (w : World) (x : Py.exn) : Prop :=
  (exists w', update (_api e) w = (Py.Raise x, w')) \/
  (exists raw w', update (_api e) w = (Py.Ok raw, w') /\
                  get_sensor_data (_api e) raw = Py.Raise x).

(** [round(z / d)] of the integer level [z] is the integer nearest to
    [z / d], which is [(2 * z + d) / (2 * d)] in integer arithmetic when [d]
    is odd. *)
Definition nearest_ok (d z : Z) : bool :=
  match round_div (Py.Int z) d with
  | Py.Ok (Py.Int n) => n =? (2 * z + d) / (2 * d)
  | _ => false
  end.

(** ** Rounding, stated arithmetically

    [n] is [round(a / b)] for integers [a] and [b > 0], with no reference to
    floats: [n] is within a half of [a / b], and when it is exactly a half
    away it is even. *)
Definition rounds_to (a b n : Z) : Prop :=
  2 * Z.abs (n * b - a) <= b /\
  (2 * Z.abs (n * b - a) = b -> Z.even n = true).

Definition rounds_to_b (a b n : Z) : bool :=
  (2 * Z.abs (n * b - a) <=? b) &&
  (if 2 * Z.abs (n * b - a) =? b then Z.even n else true).

(** [round(v / d)] evaluates to an [int] that is [round(a / b)]. *)
Definition rounds_ok (d : Z) (v : Py.val) (a b : Z) : bool :=
  match round_div v d with
  | Py.Ok (Py.Int n) => rounds_to_b a b n
  | _ => false
  end.

(** [n] is the exact value of the finite float [q] rounded to an integer. *)
Definition rounds_float_to (q : spec_float) (n : Z) : Prop :=
  match q with
  | S754_zero _ => n = 0
  | S754_finite s m e =>
      if e <? 0 then rounds_to (cond_Zopp s (Zpos m)) (2 ^ (- e)) n
      else n = cond_Zopp s (Zpos m) * 2 ^ e
  | _ => False
  end.

(** ** The remaining class attributes *)

Inductive DeviceClass : Type :=
  | SensorDeviceClass_TEMPERATURE
  | SensorDeviceClass_HUMIDITY
  | BinarySensorDeviceClass_MOISTURE
  | SensorDeviceClass_PM25.

Inductive StateClass : Type := SensorStateClass_MEASUREMENT.

Definition _attr_device_class (c : SensorClass) : option DeviceClass :=
  match c with
  | CocoroAirTemperatureSensor => Some SensorDeviceClass_TEMPERATURE
  | CocoroAirHumiditySensor => Some SensorDeviceClass_HUMIDITY
  | CocoroAirWaterTankSensor => Some BinarySensorDeviceClass_MOISTURE
  | CocoroAirPM25Sensor => Some SensorDeviceClass_PM25
  | _ => None
  end.

Definition _attr_state_class (c : SensorClass) : option StateClass :=
  match c with
  | CocoroAirWaterTankSensor => None
  | _ => Some SensorStateClass_MEASUREMENT
  end.

Definition _attr_has_entity_name (c : SensorClass) : bool := true.

(** ** Runs of several refreshes *)

(** The host polls one entity [n] times in a row, whatever the outcome of
    each call: the next call runs on the entity, the world and the log the
    previous one left. *)
Fixpoint refresh_n {DeviceInfo RawSnapshot World : Type} (n : nat)
    (e : Entity DeviceInfo RawSnapshot World) (w : World) (l : list LogRecord)
  : State DeviceInfo RawSnapshot World :=
  match n with
  | O => mkState e w l
  | S n' =>
      let st := (refresh e w l).2 in
      refresh_n n' (self st) (world st) (log st)
  end.

(** One polling cycle of the host: every registered entity is polled once,
    in the order of registration. *)
Definition poll_all {DeviceInfo RawSnapshot World : Type}
    (p : Registered DeviceInfo RawSnapshot World)
  : Registered DeviceInfo RawSnapshot World :=
  foldl (fun q i => (poll i q).2) p (seq 0 (length (entities p))).

(** The fetch of entity [e] from the world [w] yields the raw value [v]:
    the poll returns a snapshot, [get_sensor_data] a mapping of it, and the
    mapping holds [v] under the key of the entity's class. *)
Definition fetched {DeviceInfo RawSnapshot World : Type}
    (e : Entity DeviceInfo RawSnapshot World) (w : World) (v : Py.val) : Prop :=
  exists raw w' data,
    update (_api e) w = (Py.Ok raw, w') /\
    get_sensor_data (_api e) raw = Py.Ok data /\
    data !! field_name (cls e) = Some v.

(** The value entity [e] displays after a refresh whose poll returned the
    snapshot [raw]. *)
Definition next_value {DeviceInfo RawSnapshot World : Type}
    (e : Entity DeviceInfo RawSnapshot World) (raw : RawSnapshot) : Py.val :=
  match get_sensor_data (_api e) raw with
  | Py.Ok data =>
      match data !! field_name (cls e) with
      | Some v =>
          match displayed (cls e) v with
          | Py.Ok v' => v'
          | Py.Raise _ => _attr_state e
          end
      | None => _attr_state e
      end
  | Py.Raise _ => _attr_state e
  end.

(** The three classes that scale their raw value. *)
Definition is_scaled (c : SensorClass) : bool :=
  match c with
  | CocoroAirOdorLevelSensor
  | CocoroAirDustLevelSensor
  | CocoroAirCleanlinessLevelSensor => true
  | _ => false
  end.

(** A level as a scaled entity displays it: null or an [int]. *)
Definition is_level (v : Py.val) : Prop :=
  v = Py.None_ \/ exists n, v = Py.Int n.

(** The float level [z.0] displays what the integer level [z] does. *)
Definition integral_float_ok (c : SensorClass) (z : Z) : bool :=
  match displayed c (Py.Float (Py.float_of_dyadic z 0)), displayed c (Py.Int z) with
  | Py.Ok (Py.Int a), Py.Ok (Py.Int b) => a =? b
  | _, _ => false
  end.

(** [s] without its first [n] characters. *)
Fixpoint string_drop (n : nat) (s : string) : string :=
  match n, s with
  | O, _ => s
  | S n', String _ s' => string_drop n' s'
  | S _, EmptyString => EmptyString
  end.

(** ** A device for the examples

    Its client counts the polls in the world, every poll returns the outcome
    [r], and [get_sensor_data] hands the mapping over as it is. *)
Module Sample.

Definition api (r : Py.result (gmap string Py.val))
  : CocoroAirApi string (gmap string Py.val) nat :=
  mkApi "abc123" "Cocoro Air" (fun w => (r, S w)) Py.Ok.

Definition snapshot (key : string) (v : Py.val) : gmap string Py.val :=
  <[key := v]> (∅ : gmap string Py.val).

(** An entity of class [c] over the sample device that displays [v]. *)
Definition entity (c : SensorClass) (r : Py.result (gmap string Py.val))
    (v : Py.val) : Entity string (gmap string Py.val) nat :=
  setattr_state (init c (api r)) v.

Definition hass (r : Py.result (gmap string Py.val))
  : HomeAssistant string (gmap string Py.val) nat :=
  mkHomeAssistant
    (<["cocoro_air" := <["entry1" := <["cocoro_air_api" := api r]> ∅]> ∅]> ∅).

(** The platform's registration callback: appends to the host's entities. *)
Definition add_entities (new : list (Entity string (gmap string Py.val) nat))
  : Py.M (list (Entity string (gmap string Py.val) nat)) unit :=
  fun h => (Py.Ok tt, h ++ new).

End Sample.

(** A full reading of the sample device and a second device. *)
Module Reading.

Definition data : gmap string Py.val :=
  <["temperature" := Py.Float (Py.float_of_dyadic 45 (-1))]>
  (<["humidity" := Py.Int 45]>
  (<["water_tank" := Py.Bool true]>
  (<["pm25" := Py.Int 8]>
  (<["cleaned_air_volume" := Py.Int 1200]>
  (<["odor_level" := Py.Int 99]>
  (<["dust_level" := Py.Float (Py.float_of_dyadic 25 (-1))]>
  (<["cleanliness_level" := Py.None_]> ∅))))))).

(** The host after the setup of the sample device, before any poll. *)
Definition registered : Registered string (gmap string Py.val) nat :=
  mkRegistered ((fun c => init c (Sample.api (Py.Ok data))) <$> classes) 0%nat [].

Definition other_api : CocoroAirApi string (gmap string Py.val) nat :=
  mkApi "abc123_odor" "Cocoro Air" (fun w => (Py.Ok data, S w)) Py.Ok.

End Reading.

(** ** Properties *)

Section Properties.

Variables DeviceInfo RawSnapshot World : Type.

Implicit Types (api : CocoroAirApi DeviceInfo RawSnapshot World)
  (e : Entity DeviceInfo RawSnapshot World)
  (st : State DeviceInfo RawSnapshot World)
  (w : World) (l : list LogRecord) (c : SensorClass)
  (raw : RawSnapshot) (data : gmap string Py.val) (v : Py.val) (x : Py.exn).

#[local] Arguments Py.truediv : simpl never.
#[local] Arguments Py.round : simpl never.

(** The [try] block of class [cls e], step by step. *)
Lemma try_block_run e w l :
  try_block (cls e) (mkState e w l) =
  match update (_api e) w with
  | (Py.Raise x, w') => (Py.Raise x, mkState e w' l)
  | (Py.Ok raw, w') =>
      match get_sensor_data (_api e) raw with
      | Py.Raise x => (Py.Raise x, mkState e w' l)
      | Py.Ok data =>
          match data !! field_name (cls e) with
          | None => (Py.Raise (Py.KeyError (field_name (cls e))), mkState e w' l)
          | Some v =>
              match displayed (cls e) v with
              | Py.Raise x => (Py.Raise x, mkState e w' l)
              | Py.Ok v' => (Py.Ok tt, mkState (setattr_state e v') w' l)
              end
          end
      end
  end.
Proof.
  destruct (cls e) eqn:Hc; cbn;
    unfold CocoroAirTemperatureSensor_try, CocoroAirHumiditySensor_try,
      CocoroAirWaterTankSensor_try, CocoroAirPM25Sensor_try,
      CocoroAirCleanedAirVolumeSensor_try, CocoroAirOdorLevelSensor_try,
      CocoroAirDustLevelSensor_try, CocoroAirCleanlinessLevelSensor_try,
      Py.bind, await_api_update, api_get_sensor_data, Py.eval, Py.getitem,
      set_attr_state, scaled, round_div; cbn;
    destruct (update (_api e) w) as [[raw|x] w']; cbn; try reflexivity;
    destruct (get_sensor_data (_api e) raw) as [data|x]; cbn; try reflexivity;
    destruct (data !! _) as [v|]; cbn; try reflexivity;
    destruct v; cbn; try reflexivity;
    destruct (Py.truediv _ _) as [q|x]; cbn; try reflexivity;
    destruct (Py.round q); reflexivity.
Qed.

(** [async_update] is the [try] block under its handler. *)
Lemma refresh_run e w l :
  refresh e w l =
  match try_block (cls e) (mkState e w l) with
  | (Py.Ok a, st) => (Py.Ok a, st)
  | (Py.Raise x, st) =>
      if Py.isinstance_Exception x
      then (Py.Ok tt, mkState (self st) (world st) (log st ++ [warning_of x]))
      else (Py.Raise x, st)
  end.
Proof.
  unfold refresh; destruct (cls e); reflexivity.
Qed.

(** What a refresh leaves of [self] besides the displayed value. *)
Lemma refresh_self e w l :
  exists v, self (refresh e w l).2 = setattr_state e v.
Proof.
  rewrite refresh_run, try_block_run.
  assert (He : e = setattr_state e (_attr_state e)) by (destruct e; reflexivity).
  destruct (update (_api e) w) as [[raw|x] w']; cbn;
    [ destruct (get_sensor_data (_api e) raw) as [data|x]; cbn;
      [ destruct (data !! field_name (cls e)) as [v|]; cbn;
        [ destruct (displayed (cls e) v) as [v'|x]; cbn | ] | ] | ];
    first
      [ eexists; reflexivity
      | exists (_attr_state e); exact He
      | match goal with
        | |- context [Py.isinstance_Exception ?y] =>
            destruct (Py.isinstance_Exception y); cbn;
            exists (_attr_state e); exact He
        end ].
Qed.

(** A refresh whose [try] block raises [x] leaves [self] as it was; the
    handler runs exactly when [x] is an [Exception]. *)
Lemma refresh_raise e w l x st :
  try_block (cls e) (mkState e w l) = (Py.Raise x, st) ->
  self st = e ->
  self (refresh e w l).2 = e /\
  (Py.isinstance_Exception x = true ->
     (refresh e w l).1 = Py.Ok tt /\
     log (refresh e w l).2 = log st ++ [warning_of x]) /\
  (Py.isinstance_Exception x = false -> (refresh e w l).1 = Py.Raise x).
Proof.
  intros Ht Hs. rewrite refresh_run, Ht.
  destruct (Py.isinstance_Exception x); cbn; repeat split; auto; discriminate.
Qed.

(** C1 (as amended).  When the fetch of a refresh raises [x] -- [update()]
    raises it, or [get_sensor_data()] does -- the entity is left as it was,
    so it displays the value it displayed before.  If [x] is an instance of
    [Exception] it is caught: [async_update] returns normally and one
    warning is logged.  An exception outside the [Exception] hierarchy is not
    caught by [except Exception] and reaches the caller. *)
Theorem C1_fetch_exception_keeps_value e w l x :
  fetch_raises e w x ->
  self (refresh e w l).2 = e /\
  _attr_state (self (refresh e w l).2) = _attr_state e /\
  (Py.isinstance_Exception x = true ->
     (refresh e w l).1 = Py.Ok tt /\
     log (refresh e w l).2 = l ++ [warning_of x]) /\
  (Py.isinstance_Exception x = false -> (refresh e w l).1 = Py.Raise x).
Proof.
  intros Hf.
  assert (Ht : exists w', try_block (cls e) (mkState e w l) = (Py.Raise x, mkState e w' l)).
  { rewrite try_block_run.
    destruct Hf as [[w' Hu] | (raw & w' & Hu & Hg)]; rewrite Hu; [| rewrite Hg];
      exists w'; reflexivity. }
  destruct Ht as [w' Ht].
  destruct (refresh_raise e w l x _ Ht eq_refl) as (Hs & Hc & Hp).
  split; [exact Hs |]. split; [rewrite Hs; reflexivity |]. split; assumption.
Qed.

(** C3 (as amended).  After a fetch that returned a mapping, an entity whose
    field is null in it displays null, whatever it displayed before.  When
    the key is absent from the mapping the subscript raises [KeyError], which
    the handler catches: a warning is logged and the entity keeps the value
    it displayed before. *)
Theorem C3_null_field_displays_null e w l raw w' data :
  update (_api e) w = (Py.Ok raw, w') ->
  get_sensor_data (_api e) raw = Py.Ok data ->
  (data !! field_name (cls e) = Some Py.None_ ->
     _attr_state (self (refresh e w l).2) = Py.None_ /\
     (refresh e w l).1 = Py.Ok tt /\
     log (refresh e w l).2 = l) /\
  (data !! field_name (cls e) = None ->
     _attr_state (self (refresh e w l).2) = _attr_state e /\
     (refresh e w l).1 = Py.Ok tt /\
     log (refresh e w l).2 = l ++ [warning_of (Py.KeyError (field_name (cls e)))]).
Proof.
  intros Hu Hg. split; intros Hk.
  - rewrite refresh_run, try_block_run, Hu, Hg, Hk.
    assert (Hd : displayed (cls e) Py.None_ = Py.Ok Py.None_)
      by (destruct (cls e); reflexivity).
    rewrite Hd. cbn. auto.
  - assert (Ht : try_block (cls e) (mkState e w l)
                 = (Py.Raise (Py.KeyError (field_name (cls e))), mkState e w' l))
      by (rewrite try_block_run, Hu, Hg, Hk; reflexivity).
    destruct (refresh_raise e w l _ _ Ht eq_refl) as (Hs & Hc & _).
    destruct (Hc eq_refl) as [Hr Hl].
    rewrite Hs. auto.
Qed.

(** A refresh whose fetch returned [data] with the raw value [v] under the
    entity's key: the entity displays [displayed (cls e) v] when that
    evaluates, and keeps its value when it raises. *)
Lemma refresh_fetched e w l raw w' data v :
  update (_api e) w = (Py.Ok raw, w') ->
  get_sensor_data (_api e) raw = Py.Ok data ->
  data !! field_name (cls e) = Some v ->
  _attr_state (self (refresh e w l).2) =
  match displayed (cls e) v with
  | Py.Ok v' => v'
  | Py.Raise _ => _attr_state e
  end.
Proof.
  intros Hu Hg Hk.
  rewrite refresh_run, try_block_run, Hu, Hg, Hk.
  destruct (displayed (cls e) v) as [v'|x]; cbn; [reflexivity |].
  destruct (Py.isinstance_Exception x); reflexivity.
Qed.

Lemma scaled_not_None d v : v <> Py.None_ -> scaled d v = round_div v d.
Proof. destruct v; intros H; [contradiction | reflexivity ..]. Qed.

Lemma rounds_to_b_spec (a b n : Z) :
  rounds_to_b a b n = true -> rounds_to a b n.
Proof.
  unfold rounds_to_b, rounds_to. intros H.
  apply andb_prop in H as [H1 H2]. apply Z.leb_le in H1.
  split; [exact H1 |]. intros Heq.
  apply Z.eqb_eq in Heq. rewrite Heq in H2. exact H2.
Qed.

(** A check of [rounds_ok] on every integer of a range, read back. *)
Lemma rounds_ok_range (d : Z) (f : Z -> Py.val) (a : Z -> Z) (b lo len : Z) :
  forallb (fun z => rounds_ok d (f z) (a z) b) (seqZ lo len) = true ->
  forall z, lo <= z < lo + len ->
  exists n, round_div (f z) d = Py.Ok (Py.Int n) /\ rounds_to (a z) b n.
Proof.
  intros Hall z Hz.
  assert (Hin : In z (seqZ lo len)).
  { apply list_elem_of_In, elem_of_seqZ. lia. }
  pose proof (proj1 (forallb_forall _ _) Hall z Hin) as H. cbn beta in H.
  unfold rounds_ok in H.
  destruct (round_div (f z) d) as [[| | n | |]|]; try discriminate H.
  exists n. split; [reflexivity | exact (rounds_to_b_spec _ _ _ H)].
Qed.

(** [round] of a float with a negative exponent is the nearest integer,
    the even one at a tie. *)
Lemma round_half_even_rounds_to (m ex : Z) :
  ex < 0 -> rounds_to m (2 ^ (- ex)) (Py.round_half_even m ex).
Proof.
  intros He. unfold Py.round_half_even, rounds_to.
  destruct (Z.leb_spec 0 ex) as [Hle | _]; [lia |].
  assert (Hb : 0 < 2 ^ (- ex)) by (apply Z.pow_pos_nonneg; lia).
  set (b := 2 ^ (- ex)) in *.
  pose proof (Z.div_mod m b ltac:(lia)) as Hdm.
  pose proof (Z.mod_pos_bound m b Hb) as Hr.
  set (k := m / b) in *. set (r := m mod b) in *.
  destruct (Z.compare_spec (2 * r) b) as [Heq | Hlt | Hgt].
  - destruct (Z.even k) eqn:Hev.
    + split; [nia | intros _; exact Hev].
    + split; [nia |]. intros _.
      replace (k + 1) with (Z.succ k) by lia.
      rewrite Z.even_succ, <- Z.negb_even, Hev. reflexivity.
  - split; [nia | intros H; exfalso; nia].
  - split; [nia | intros H; exfalso; nia].
Qed.

Lemma float_round_rounds_to (q : spec_float) :
  Py.is_finite q = true ->
  exists n, Py.float_round q = Py.Ok (Py.Int n) /\ rounds_float_to q n.
Proof.
  destruct q as [s | s | | s m ex]; cbn; intros H; try discriminate H.
  - exists 0. split; reflexivity.
  - eexists. split; [reflexivity |].
    destruct (Z.ltb_spec ex 0) as [Hlt | Hge].
    + apply round_half_even_rounds_to. exact Hlt.
    + unfold Py.round_half_even.
      destruct (Z.leb_spec 0 ex) as [_ | Hlt]; [reflexivity | lia].
Qed.

(** C2.  After a fetch that returned a mapping with a non-null raw value
    [v] under the entity's key, the odor-level entity displays
    [round(v / 33)], the dust-level and the cleanliness-level entities
    display [round(v / 25)], and each of the five other entities displays
    [v] itself; an odor level of 99 displays 3 and a dust level of 12
    displays 0.  What [round(v / d)] is does not rest on the evaluation of
    the two builtins alone: for an integer raw value [z] and for a float raw
    value [m / 2], up to 1000 in size, the value displayed is the integer
    nearest to [z / d], respectively [m / (2 * d)], the even one at a tie;
    for every raw value it is the integer nearest to the float quotient, the
    even one at a tie; and raw values whose quotient has a fraction of a
    half or more are displayed rounded up or to even, not cut off. *)
Theorem C2_refresh_displays_scaled_or_raw e w l raw w' data v :
  update (_api e) w = (Py.Ok raw, w') ->
  get_sensor_data (_api e) raw = Py.Ok data ->
  data !! field_name (cls e) = Some v ->
  v <> Py.None_ ->
  let shown := _attr_state (self (refresh e w l).2) in
  (cls e = CocoroAirOdorLevelSensor ->
     forall n, round_div v 33 = Py.Ok n -> shown = n) /\
  (cls e = CocoroAirDustLevelSensor ->
     forall n, round_div v 25 = Py.Ok n -> shown = n) /\
  (cls e = CocoroAirCleanlinessLevelSensor ->
     forall n, round_div v 25 = Py.Ok n -> shown = n) /\
  (cls e <> CocoroAirOdorLevelSensor ->
   cls e <> CocoroAirDustLevelSensor ->
   cls e <> CocoroAirCleanlinessLevelSensor -> shown = v) /\
  (cls e = CocoroAirOdorLevelSensor -> v = Py.Int 99 -> shown = Py.Int 3) /\
  (cls e = CocoroAirDustLevelSensor -> v = Py.Int 12 -> shown = Py.Int 0) /\
  (forall d,
     cls e = CocoroAirOdorLevelSensor /\ d = 33 \/
     cls e = CocoroAirDustLevelSensor /\ d = 25 \/
     cls e = CocoroAirCleanlinessLevelSensor /\ d = 25 ->
     (forall z, v = Py.Int z -> -1000 <= z <= 1000 ->
        exists n, shown = Py.Int n /\ rounds_to z d n) /\
     (forall m, v = Py.Float (Py.float_of_dyadic m (-1)) ->
        -2000 <= m <= 2000 ->
        exists n, shown = Py.Int n /\ rounds_to m (2 * d) n) /\
     (forall q, Py.truediv v d = Py.Ok (Py.Float q) ->
        Py.is_finite q = true ->
        exists n, shown = Py.Int n /\ rounds_float_to q n)) /\
  (cls e = CocoroAirOdorLevelSensor -> v = Py.Int 50 -> shown = Py.Int 2) /\
  (cls e = CocoroAirDustLevelSensor -> v = Py.Int 13 -> shown = Py.Int 1) /\
  (cls e = CocoroAirOdorLevelSensor ->
     v = Py.Float (Py.float_of_dyadic 99 (-1)) -> shown = Py.Int 2) /\
  (cls e = CocoroAirDustLevelSensor ->
     v = Py.Float (Py.float_of_dyadic 81 (-2)) -> shown = Py.Int 1) /\
  (cls e = CocoroAirCleanlinessLevelSensor ->
     v = Py.Float (Py.float_of_dyadic 175 (-1)) -> shown = Py.Int 4) /\
  (cls e = CocoroAirOdorLevelSensor ->
     v = Py.Float (Py.float_of_dyadic 33 (-2)) -> shown = Py.Int 0).
Proof.
  intros Hu Hg Hk Hv shown.
  pose proof (refresh_fetched e w l raw w' data v Hu Hg Hk) as H.
  fold shown in H.
  assert (Hpair : forall d,
            cls e = CocoroAirOdorLevelSensor /\ d = 33 \/
            cls e = CocoroAirDustLevelSensor /\ d = 25 \/
            cls e = CocoroAirCleanlinessLevelSensor /\ d = 25 ->
            forall n, round_div v d = Py.Ok n -> shown = n).
  { intros d Hc n Hn. rewrite H.
    destruct Hc as [[-> ->] | [[-> ->] | [-> ->]]]; cbn;
      rewrite scaled_not_None, Hn by exact Hv; reflexivity. }
  split; [| split; [| split; [| split; [| split; [| split; [| split]]]]]].
  - intros Hc n Hn. rewrite H, Hc. cbn. rewrite scaled_not_None, Hn by exact Hv. reflexivity.
  - intros Hc n Hn. rewrite H, Hc. cbn. rewrite scaled_not_None, Hn by exact Hv. reflexivity.
  - intros Hc n Hn. rewrite H, Hc. cbn. rewrite scaled_not_None, Hn by exact Hv. reflexivity.
  - intros H1 H2 H3. rewrite H. destruct (cls e); try reflexivity; contradiction.
  - intros Hc ->. rewrite H, Hc. reflexivity.
  - intros Hc ->. rewrite H, Hc. reflexivity.
  - intros d Hc.
    assert (Hd : d = 33 \/ d = 25)
      by (destruct Hc as [[_ ->] | [[_ ->] | [_ ->]]]; auto).
    split; [| split].
    + intros z -> Hz.
      assert (Hr : exists n, round_div (Py.Int z) d = Py.Ok (Py.Int n) /\ rounds_to z d n).
      { destruct Hd as [-> | ->];
          apply (rounds_ok_range _ Py.Int (fun z => z) _ (-1000) 2001);
          first [vm_compute; reflexivity | lia]. }
      destruct Hr as (n & Hn & Hr). exists n.
      split; [exact (Hpair d Hc _ Hn) | exact Hr].
    + intros m -> Hm.
      assert (Hr : exists n,
                 round_div (Py.Float (Py.float_of_dyadic m (-1))) d = Py.Ok (Py.Int n) /\
                 rounds_to m (2 * d) n).
      { destruct Hd as [-> | ->];
          apply (rounds_ok_range _ (fun m => Py.Float (Py.float_of_dyadic m (-1)))
                   (fun m => m) _ (-2000) 4001);
          first [vm_compute; reflexivity | lia]. }
      destruct Hr as (n & Hn & Hr). exists n.
      split; [exact (Hpair d Hc _ Hn) | exact Hr].
    + intros q Hq Hfin.
      destruct (float_round_rounds_to q Hfin) as (n & Hn & Hr).
      exists n. split; [| exact Hr].
      apply (Hpair d Hc). unfold round_div. rewrite Hq. exact Hn.
  - repeat split; intros Hc ->; rewrite H, Hc; reflexivity.
Qed.

(** C5.  Two refreshes of one entity whose polls return the same snapshot
    leave the same displayed value: after the second, the entity displays
    what it displayed after the first. *)
Theorem C5_refresh_idempotent e w l raw w1 w2 l2 w3 :
  update (_api e) w = (Py.Ok raw, w1) ->
  update (_api e) w2 = (Py.Ok raw, w3) ->
  let st1 := (refresh e w l).2 in
  let st2 := (refresh (self st1) w2 l2).2 in
  _attr_state (self st2) = _attr_state (self st1).
Proof.
  intros Hu1 Hu2 st1 st2. subst st2.
  destruct (refresh_self e w l) as [v1 Hs]. fold st1 in Hs.
  assert (H1 : _attr_state (self st1) =
               match get_sensor_data (_api e) raw with
               | Py.Ok data =>
                   match data !! field_name (cls e) with
                   | Some v =>
                       match displayed (cls e) v with
                       | Py.Ok v' => v'
                       | Py.Raise _ => _attr_state e
                       end
                   | None => _attr_state e
                   end
               | Py.Raise _ => _attr_state e
               end).
  { subst st1. rewrite refresh_run, try_block_run, Hu1.
    destruct (get_sensor_data (_api e) raw) as [data|x]; cbn;
      [ destruct (data !! field_name (cls e)) as [v|]; cbn;
        [ destruct (displayed (cls e) v) as [v'|x]; cbn | ] | ];
      try reflexivity;
      destruct (Py.isinstance_Exception x); reflexivity. }
  rewrite refresh_run, try_block_run, Hs. cbn [setattr_state cls _api].
  rewrite Hu2. rewrite Hs in H1. cbn [setattr_state _attr_state] in H1.
  destruct (get_sensor_data (_api e) raw) as [data|x]; cbn;
    [ destruct (data !! field_name (cls e)) as [v|]; cbn;
      [ destruct (displayed (cls e) v) as [v'|x]; cbn | ] | ];
    try (symmetry; exact H1);
    try reflexivity;
    destruct (Py.isinstance_Exception x); reflexivity.
Qed.

(** C10.  The value displayed after a successful refresh is a function of
    the mapping the fetch returned: two entities of one class, displaying
    any two values, whose fetches return the same mapping and whose [try]
    blocks complete, display the same value afterwards, the one the class
    computes from the raw value under its key. *)
Theorem C10_refresh_determined_by_snapshot
    (e1 e2 : Entity DeviceInfo RawSnapshot World) w1 w2 l1 l2
    raw1 raw2 w1' w2' data :
  cls e1 = cls e2 ->
  update (_api e1) w1 = (Py.Ok raw1, w1') ->
  get_sensor_data (_api e1) raw1 = Py.Ok data ->
  update (_api e2) w2 = (Py.Ok raw2, w2') ->
  get_sensor_data (_api e2) raw2 = Py.Ok data ->
  (try_block (cls e1) (mkState e1 w1 l1)).1 = Py.Ok tt ->
  (try_block (cls e2) (mkState e2 w2 l2)).1 = Py.Ok tt ->
  _attr_state (self (refresh e1 w1 l1).2) = _attr_state (self (refresh e2 w2 l2).2) /\
  exists v, data !! field_name (cls e1) = Some v /\
            displayed (cls e1) v = Py.Ok (_attr_state (self (refresh e1 w1 l1).2)).
Proof.
  intros Hc Hu1 Hg1 Hu2 Hg2 Hs1 Hs2.
  rewrite !refresh_run.
  rewrite try_block_run, Hu1, Hg1 in Hs1 |- *.
  rewrite try_block_run, Hu2, Hg2 in Hs2 |- *.
  rewrite <- Hc in Hs2 |- *.
  destruct (data !! field_name (cls e1)) as [v|]; [| discriminate].
  destruct (displayed (cls e1) v) as [v'|x] eqn:Hd; [| discriminate].
  cbn. split; [reflexivity |]. exists v. split; [reflexivity | exact Hd].
Qed.

(** C4.  The unique identifier of each of the eight entities built for a
    device is the device id followed by the suffix of the entity's class, and
    the eight identifiers are pairwise different. *)
Theorem C4_unique_id_is_device_id_with_suffix api :
  (forall c, _attr_unique_id (init c api) = device_id api +:+ suffix c) /\
  (forall c1 c2,
     _attr_unique_id (init c1 api) = _attr_unique_id (init c2 api) <-> c1 = c2) /\
  NoDup ((fun e => _attr_unique_id e) <$>
         [ CocoroAirTemperatureSensor_init api;
           CocoroAirHumiditySensor_init api;
           CocoroAirWaterTankSensor_init api;
           CocoroAirPM25Sensor_init api;
           CocoroAirCleanedAirVolumeSensor_init api;
           CocoroAirOdorLevelSensor_init api;
           CocoroAirDustLevelSensor_init api;
           CocoroAirCleanlinessLevelSensor_init api ]).
Proof.
  assert (Hid : forall c, _attr_unique_id (init c api) = device_id api +:+ suffix c)
    by (intros []; reflexivity).
  assert (Hinj : forall c1 c2, suffix c1 = suffix c2 -> c1 = c2)
    by (intros [] []; cbn; intros H; first [reflexivity | discriminate H]).
  split; [exact Hid |]. split.
  - intros c1 c2. split; [| intros ->; reflexivity].
    rewrite !Hid. intros H. apply Hinj. exact (String.app_inj _ _ _ H).
  - change (NoDup ((fun c => _attr_unique_id (init c api)) <$> classes)).
    apply NoDup_fmap_2_strong.
    + intros c1 c2 _ _ H. rewrite !Hid in H.
      apply Hinj. exact (String.app_inj _ _ _ H).
    + apply (bool_decide_unpack _). reflexivity.
Qed.

(** C8.  An entity displays null when it has just been constructed: every
    constructor binds the state attribute ([_attr_native_value], and
    [_attr_is_on] of the water-tank sensor) to [None]. *)
Theorem C8_constructed_displays_null api :
  _attr_state (CocoroAirTemperatureSensor_init api) = Py.None_ /\
  _attr_state (CocoroAirHumiditySensor_init api) = Py.None_ /\
  _attr_state (CocoroAirWaterTankSensor_init api) = Py.None_ /\
  _attr_state (CocoroAirPM25Sensor_init api) = Py.None_ /\
  _attr_state (CocoroAirCleanedAirVolumeSensor_init api) = Py.None_ /\
  _attr_state (CocoroAirOdorLevelSensor_init api) = Py.None_ /\
  _attr_state (CocoroAirDustLevelSensor_init api) = Py.None_ /\
  _attr_state (CocoroAirCleanlinessLevelSensor_init api) = Py.None_ /\
  forall c, _attr_state (init c api) = Py.None_.
Proof.
  repeat split. intros []; reflexivity.
Qed.

(** C6.  Polling the entity at index [i] of the host's entities rebinds
    that entity's displayed value and nothing else of it: its class (hence
    name and unit), API reference, unique identifier and device info are
    those it had; every other entity is the object it was. *)
Theorem C6_refresh_changes_own_value_only
    (p : Registered DeviceInfo RawSnapshot World) (i : nat) e :
  entities p !! i = Some e ->
  let e' := self (refresh e (reg_world p) (reg_log p)).2 in
  entities (poll i p).2 !! i = Some e' /\
  e' = setattr_state e (_attr_state e') /\
  _api e' = _api e /\
  _attr_unique_id e' = _attr_unique_id e /\
  _attr_device_info e' = _attr_device_info e /\
  cls e' = cls e /\
  _attr_name (cls e') = _attr_name (cls e) /\
  _attr_native_unit_of_measurement (cls e') =
    _attr_native_unit_of_measurement (cls e) /\
  length (entities (poll i p).2) = length (entities p) /\
  forall j, j <> i -> entities (poll i p).2 !! j = entities p !! j.
Proof.
  intros Hi e'.
  destruct (refresh_self e (reg_world p) (reg_log p)) as [v Hv].
  fold e' in Hv.
  assert (Hp : entities (poll i p).2 = <[i := e']> (entities p)).
  { unfold poll. rewrite Hi. subst e'.
    destruct (refresh e (reg_world p) (reg_log p)); reflexivity. }
  rewrite Hp, Hv. cbn [setattr_state cls _api _attr_unique_id _attr_device_info _attr_state].
  split. { apply list_lookup_insert_eq. eapply lookup_lt_Some; exact Hi. }
  repeat (split; [reflexivity |]).
  split. { apply length_insert. }
  intros j Hj. apply list_lookup_insert_ne. auto.
Qed.

(** C7.  The setup routine looks the API client up in the host's registry
    under the domain, the entry id and the key ["cocoro_air_api"], builds the
    eight entities in the order temperature, humidity, water tank, PM2.5,
    cleaned air volume, odor level, dust level, cleanliness level, each
    holding that one client, and calls the registration callback once, on
    exactly that list.  Nothing is handled: the callback's outcome is the
    routine's, and a failed lookup raises [KeyError] to the caller with the
    callback not called. *)
Theorem C7_setup_registers_eight_entities
    (DOMAIN : string) (Host : Type)
    (hass : HomeAssistant DeviceInfo RawSnapshot World) (entry : ConfigEntry)
    (async_add_entities :
       list (Entity DeviceInfo RawSnapshot World) -> Py.M Host unit)
    (h : Host) :
  (forall by_domain by_entry api,
     data hass !! DOMAIN = Some by_domain ->
     by_domain !! entry_id entry = Some by_entry ->
     by_entry !! "cocoro_air_api" = Some api ->
     let built :=
       [ CocoroAirTemperatureSensor_init api;
         CocoroAirHumiditySensor_init api;
         CocoroAirWaterTankSensor_init api;
         CocoroAirPM25Sensor_init api;
         CocoroAirCleanedAirVolumeSensor_init api;
         CocoroAirOdorLevelSensor_init api;
         CocoroAirDustLevelSensor_init api;
         CocoroAirCleanlinessLevelSensor_init api ] in
     async_setup_entry DOMAIN hass entry async_add_entities h
       = async_add_entities built h /\
     length built = 8%nat /\
     (fun e => cls e) <$> built = classes /\
     Forall (fun e => _api e = api) built) /\
  (data hass !! DOMAIN = None ->
     async_setup_entry DOMAIN hass entry async_add_entities h
       = (Py.Raise (Py.KeyError DOMAIN), h)) /\
  (forall by_domain,
     data hass !! DOMAIN = Some by_domain ->
     by_domain !! entry_id entry = None ->
     async_setup_entry DOMAIN hass entry async_add_entities h
       = (Py.Raise (Py.KeyError (entry_id entry)), h)) /\
  (forall by_domain by_entry,
     data hass !! DOMAIN = Some by_domain ->
     by_domain !! entry_id entry = Some by_entry ->
     by_entry !! "cocoro_air_api" = None ->
     async_setup_entry DOMAIN hass entry async_add_entities h
       = (Py.Raise (Py.KeyError "cocoro_air_api"), h)).
Proof.
  split; [| split; [| split]].
  - intros d d' api H1 H2 H3 built.
    unfold async_setup_entry, Py.bind, Py.eval, Py.getitem.
    rewrite H1, H2, H3.
    split; [reflexivity |]. split; [reflexivity |]. split; [reflexivity |].
    repeat constructor.
  - intros H1.
    unfold async_setup_entry, Py.bind, Py.eval, Py.getitem.
    rewrite H1. reflexivity.
  - intros d H1 H2.
    unfold async_setup_entry, Py.bind, Py.eval, Py.getitem.
    rewrite H1, H2. reflexivity.
  - intros d d' H1 H2 H3.
    unfold async_setup_entry, Py.bind, Py.eval, Py.getitem.
    rewrite H1, H2, H3. reflexivity.
Qed.

(** A float that is exactly [k + 1/2] rounds to the even one of [k] and
    [k + 1]. *)
Lemma round_half_even_tie (m ex k : Z) :
  ex < 0 ->
  2 * m = (2 * k + 1) * 2 ^ (- ex) ->
  Py.round_half_even m ex = if Z.even k then k else k + 1.
Proof.
  intros He Hm. unfold Py.round_half_even.
  destruct (Z.leb_spec 0 ex) as [Hle | _]; [lia |].
  assert (Hp : 2 ^ (- ex) = 2 * 2 ^ (- ex - 1)).
  { rewrite <- Z.pow_succ_r by lia. f_equal. lia. }
  assert (Hh : 0 < 2 ^ (- ex - 1)) by (apply Z.pow_pos_nonneg; lia).
  set (h := 2 ^ (- ex - 1)) in *.
  rewrite Hp in *.
  assert (Hmk : m = 2 * h * k + h) by nia.
  assert (Hq : m / (2 * h) = k).
  { symmetry. apply (Z.div_unique_pos m (2 * h) k h); lia. }
  assert (Hr : m mod (2 * h) = h).
  { symmetry. apply (Z.mod_unique_pos m (2 * h) k h); lia. }
  rewrite Hq, Hr, Z.compare_refl. reflexivity.
Qed.

(** C9.  For the odor-level, dust-level and cleanliness-level entities, a
    raw value whose quotient by the divisor is the float [k + 1/2] displays
    the even one of [k] and [k + 1] (round half to even): a dust level of
    12.5 displays 0 and a dust level of 37.5 displays 2. *)
Theorem C9_halfway_quotient_rounds_to_even e w l raw w' data v :
  update (_api e) w = (Py.Ok raw, w') ->
  get_sensor_data (_api e) raw = Py.Ok data ->
  data !! field_name (cls e) = Some v ->
  let shown := _attr_state (self (refresh e w l).2) in
  (forall d q k,
     cls e = CocoroAirOdorLevelSensor /\ d = 33 \/
     cls e = CocoroAirDustLevelSensor /\ d = 25 \/
     cls e = CocoroAirCleanlinessLevelSensor /\ d = 25 ->
     Py.truediv v d = Py.Ok (Py.Float q) ->
     halfway q k ->
     shown = Py.Int (if Z.even k then k else k + 1)) /\
  (cls e = CocoroAirDustLevelSensor ->
     v = Py.Float (Py.float_of_dyadic 25 (-1)) -> shown = Py.Int 0) /\
  (cls e = CocoroAirDustLevelSensor ->
     v = Py.Float (Py.float_of_dyadic 75 (-1)) -> shown = Py.Int 2).
Proof.
  intros Hu Hg Hk shown.
  pose proof (refresh_fetched e w l raw w' data v Hu Hg Hk) as H.
  fold shown in H.
  repeat split.
  - intros d q k Hc Hq Hhalf. rewrite H.
    assert (Hd : displayed (cls e) v = round_div v d).
    { assert (Hv : v <> Py.None_) by (intros ->; discriminate Hq).
      destruct Hc as [[-> ->] | [[-> ->] | [-> ->]]]; cbn;
        apply scaled_not_None; exact Hv. }
    rewrite Hd. unfold round_div. rewrite Hq.
    destruct q as [| | | s m ex]; try contradiction.
    destruct Hhalf as [Hex Hm]. unfold Py.round, Py.float_round.
    rewrite (round_half_even_tie _ _ k Hex Hm). reflexivity.
  - intros Hc ->. rewrite H, Hc. reflexivity.
  - intros Hc ->. rewrite H, Hc. reflexivity.
Qed.

(** A raw value that cannot be divided or rounded -- a string, a NaN, an
    infinity -- makes the [try] block of a scaled entity raise; the handler
    catches it, logs one warning and the entity keeps its value. *)
Theorem scaled_entity_keeps_value_on_bad_raw e w l raw w' data v x :
  update (_api e) w = (Py.Ok raw, w') ->
  get_sensor_data (_api e) raw = Py.Ok data ->
  data !! field_name (cls e) = Some v ->
  cls e = CocoroAirOdorLevelSensor /\ round_div v 33 = Py.Raise x \/
  cls e = CocoroAirDustLevelSensor /\ round_div v 25 = Py.Raise x \/
  cls e = CocoroAirCleanlinessLevelSensor /\ round_div v 25 = Py.Raise x ->
  v <> Py.None_ ->
  Py.isinstance_Exception x = true ->
  self (refresh e w l).2 = e /\
  (refresh e w l).1 = Py.Ok tt /\
  log (refresh e w l).2 = l ++ [warning_of x].
Proof.
  intros Hu Hg Hk Hc Hv Hx.
  assert (Hd : displayed (cls e) v = Py.Raise x).
  { destruct Hc as [[-> Hr] | [[-> Hr] | [-> Hr]]]; cbn;
      rewrite scaled_not_None by exact Hv; exact Hr. }
  assert (Ht : try_block (cls e) (mkState e w l) = (Py.Raise x, mkState e w' l))
    by (rewrite try_block_run, Hu, Hg, Hk, Hd; reflexivity).
  destruct (refresh_raise e w l x _ Ht eq_refl) as (Hs & Hc' & _).
  destruct (Hc' Hx) as [Hr Hl]. auto.
Qed.

End Properties.

(** On an integer raw level the quotient is never halfway, and the float
    computation yields the nearest integer; [nearest_ok] is evaluated on
    every level from 0 to 1000. *)
Lemma nearest_ok_range d :
  forallb (nearest_ok d) (seqZ 0 1001) = true ->
  forall z, 0 <= z <= 1000 ->
  round_div (Py.Int z) d = Py.Ok (Py.Int ((2 * z + d) / (2 * d))).
Proof.
  intros Hall z Hz.
  assert (Hin : In z (seqZ 0 1001)).
  { apply list_elem_of_In, elem_of_seqZ. lia. }
  pose proof (proj1 (forallb_forall _ _) Hall z Hin) as H.
  unfold nearest_ok in H.
  destruct (round_div (Py.Int z) d) as [[| | n | |]|]; try discriminate H.
  apply Z.eqb_eq in H. subst n. reflexivity.
Qed.

(** On integer levels from 0 to 1000 the scaled entities display the
    integer nearest to the level divided by 33, respectively 25. *)
Theorem displayed_nearest_integer z :
  0 <= z <= 1000 ->
  displayed CocoroAirOdorLevelSensor (Py.Int z) = Py.Ok (Py.Int ((2 * z + 33) / 66)) /\
  displayed CocoroAirDustLevelSensor (Py.Int z) = Py.Ok (Py.Int ((2 * z + 25) / 50)) /\
  displayed CocoroAirCleanlinessLevelSensor (Py.Int z) = Py.Ok (Py.Int ((2 * z + 25) / 50)).
Proof.
  intros Hz. cbn [displayed scaled].
  rewrite (nearest_ok_range 33) by (vm_compute; reflexivity || exact Hz).
  rewrite (nearest_ok_range 25) by (vm_compute; reflexivity || exact Hz).
  repeat split.
Qed.

(** [round] on floats: halves go to the even neighbour, on both sides of
    zero. *)
Example round_examples :
  Py.round (Py.Float (Py.float_of_dyadic 1 (-1))) = Py.Ok (Py.Int 0) /\
  Py.round (Py.Float (Py.float_of_dyadic 3 (-1))) = Py.Ok (Py.Int 2) /\
  Py.round (Py.Float (Py.float_of_dyadic 5 (-1))) = Py.Ok (Py.Int 2) /\
  Py.round (Py.Float (Py.float_of_dyadic (-1) (-1))) = Py.Ok (Py.Int 0) /\
  Py.round (Py.Float (Py.float_of_dyadic (-3) (-1))) = Py.Ok (Py.Int (-2)) /\
  Py.round (Py.Float (Py.float_of_dyadic 7 (-2))) = Py.Ok (Py.Int 2) /\
  Py.round (Py.Float (Py.float_of_dyadic (-7) (-2))) = Py.Ok (Py.Int (-2)) /\
  Py.round (Py.Float S754_nan) = Py.Raise Py.ValueError /\
  Py.round (Py.Float (S754_infinity false)) = Py.Raise Py.OverflowError.
Proof. repeat split. Qed.

(** [v / 33] and [round(v / 33)] on an integer, a boolean, a float, a string
    and an integer too large for a float. *)
Example round_div_examples :
  Py.truediv (Py.Int 99) 33 = Py.Ok (Py.Float (Py.float_of_dyadic 3 0)) /\
  round_div (Py.Int 99) 33 = Py.Ok (Py.Int 3) /\
  round_div (Py.Int 12) 25 = Py.Ok (Py.Int 0) /\
  round_div (Py.Int 13) 25 = Py.Ok (Py.Int 1) /\
  round_div (Py.Bool true) 33 = Py.Ok (Py.Int 0) /\
  round_div (Py.Float (Py.float_of_dyadic 33 (-1))) 33 = Py.Ok (Py.Int 0) /\
  round_div (Py.Str "high") 33 = Py.Raise Py.TypeError /\
  round_div (Py.Int (10 ^ 400)) 33 = Py.Raise Py.OverflowError.
Proof. repeat split. Qed.


(** ** Outcomes of a refresh *)

Section Outcomes.

Variables DeviceInfo RawSnapshot World : Type.

Implicit Types (api : CocoroAirApi DeviceInfo RawSnapshot World)
  (e : Entity DeviceInfo RawSnapshot World)
  (st : State DeviceInfo RawSnapshot World)
  (w : World) (l : list LogRecord) (c : SensorClass)
  (raw : RawSnapshot) (data : gmap string Py.val) (v : Py.val) (x : Py.exn).

(** Division and rounding raise exceptions of the [Exception] hierarchy
    only. *)
Lemma displayed_raise_is_Exception c v x :
  displayed c v = Py.Raise x -> Py.isinstance_Exception x = true.
Proof.
  unfold displayed, scaled, round_div, Py.truediv, Py.int_truediv,
    Py.float_truediv, Py.round, Py.float_round.
  intros H. repeat case_match; simplify_eq; reflexivity.
Qed.

(** What a scaled class displays is null or an [int]. *)
Lemma displayed_scaled_is_level c v v' :
  is_scaled c = true -> displayed c v = Py.Ok v' -> is_level v'.
Proof.
  unfold displayed, scaled, round_div, Py.round, Py.float_round, is_level.
  intros Hc H. destruct c; try discriminate Hc;
    repeat case_match; simplify_eq; eauto.
Qed.

(** The three ways a refresh ends: the [try] block completes and the value
    is rebound; it raises an [Exception], which is logged; it raises another
    exception, which can only come from the API client and is passed on.
    In each of them the world is the one the single poll left. *)
Lemma refresh_outcomes e w l :
  let w' := (update (_api e) w).2 in
  (exists v v', fetched e w v /\ displayed (cls e) v = Py.Ok v' /\
     refresh e w l = (Py.Ok tt, mkState (setattr_state e v') w' l)) \/
  (exists x, Py.isinstance_Exception x = true /\
     refresh e w l = (Py.Ok tt, mkState e w' (l ++ [warning_of x]))) \/
  (exists x, Py.isinstance_Exception x = false /\ fetch_raises e w x /\
     refresh e w l = (Py.Raise x, mkState e w' l)).
Proof.
  rewrite refresh_run, try_block_run. unfold fetched, fetch_raises.
  destruct (update (_api e) w) as [[raw|x] w1]; cbn.
  - destruct (get_sensor_data (_api e) raw) as [data|x] eqn:Hg; cbn.
    + destruct (data !! field_name (cls e)) as [v|] eqn:Hk; cbn.
      * destruct (displayed (cls e) v) as [v'|x] eqn:Hd; cbn.
        -- left. exists v, v'. split; [| split; [exact Hd | reflexivity]].
           exists raw, w1, data. auto.
        -- rewrite (displayed_raise_is_Exception _ _ _ Hd). cbn.
           right. left. exists x. split; [| reflexivity].
           exact (displayed_raise_is_Exception _ _ _ Hd).
      * right. left. exists (Py.KeyError (field_name (cls e))).
        split; reflexivity.
    + destruct (Py.isinstance_Exception x) eqn:Hx; cbn.
      * right. left. exists x. auto.
      * right. right. exists x. split; [exact Hx |]. split; [| reflexivity].
        right. exists raw, w1. auto.
  - destruct (Py.isinstance_Exception x) eqn:Hx; cbn.
    + right. left. exists x. auto.
    + right. right. exists x. split; [exact Hx |]. split; [| reflexivity].
      left. exists w1. reflexivity.
Qed.

(** Every refresh polls the API client exactly once, whether it succeeds,
    logs a warning or raises: the world afterwards is the one a single
    [update()] leaves. *)
Theorem refresh_polls_once e w l :
  world (refresh e w l).2 = (update (_api e) w).2.
Proof.
  destruct (refresh_outcomes e w l)
    as [(v & v' & _ & _ & ->) | [(x & _ & ->) | (x & _ & _ & ->)]];
    reflexivity.
Qed.

(** An exception that leaves [async_update] is outside the [Exception]
    hierarchy and was raised by [update()] or [get_sensor_data()]; the
    entity and the log are as they were. *)
Theorem refresh_raises_only_api_base_exceptions e w l x :
  (refresh e w l).1 = Py.Raise x ->
  Py.isinstance_Exception x = false /\
  fetch_raises e w x /\
  self (refresh e w l).2 = e /\
  log (refresh e w l).2 = l.
Proof.
  intros H.
  destruct (refresh_outcomes e w l)
    as [(v & v' & _ & _ & Hr) | [(y & _ & Hr) | (y & Hy & Hf & Hr)]];
    rewrite Hr in H |- *; cbn in H |- *; try discriminate H.
  injection H as ->. auto.
Qed.

(** A refresh that adds to the log adds one warning for an [Exception] it
    caught, returns normally and leaves the entity as it was. *)
Theorem refresh_logs_only_when_value_kept e w l :
  log (refresh e w l).2 <> l ->
  exists x,
    log (refresh e w l).2 = l ++ [warning_of x] /\
    Py.isinstance_Exception x = true /\
    (refresh e w l).1 = Py.Ok tt /\
    self (refresh e w l).2 = e.
Proof.
  intros H.
  destruct (refresh_outcomes e w l)
    as [(v & v' & _ & _ & Hr) | [(y & Hy & Hr) | (y & _ & _ & Hr)]];
    rewrite Hr in H |- *; cbn in H |- *; try contradiction.
  exists y. auto.
Qed.

(** A refresh after which the entity displays another value than before
    completed its [try] block: it returned normally, logged nothing, and the
    new value is the one the class computes from the raw value fetched. *)
Theorem refresh_changed_value_is_fetched e w l :
  _attr_state (self (refresh e w l).2) <> _attr_state e ->
  (refresh e w l).1 = Py.Ok tt /\
  log (refresh e w l).2 = l /\
  exists v, fetched e w v /\
    displayed (cls e) v = Py.Ok (_attr_state (self (refresh e w l).2)).
Proof.
  intros H.
  destruct (refresh_outcomes e w l)
    as [(v & v' & Hf & Hd & Hr) | [(y & _ & Hr) | (y & _ & _ & Hr)]];
    rewrite Hr in H |- *; cbn in H |- *; try contradiction.
  split; [reflexivity |]. split; [reflexivity |]. exists v. auto.
Qed.

(** The refresh of an entity depends on the mapping only through the key
    of its class: two entities of one class displaying the same value, whose
    fetches return mappings that agree on that key, end with the same
    displayed value, the same outcome and the same log, whatever the other
    keys hold. *)
Theorem refresh_reads_own_key_only
    (e1 e2 : Entity DeviceInfo RawSnapshot World) w1 w2 l
    raw1 raw2 w1' w2' (data1 data2 : gmap string Py.val) :
  cls e1 = cls e2 ->
  _attr_state e1 = _attr_state e2 ->
  update (_api e1) w1 = (Py.Ok raw1, w1') ->
  get_sensor_data (_api e1) raw1 = Py.Ok data1 ->
  update (_api e2) w2 = (Py.Ok raw2, w2') ->
  get_sensor_data (_api e2) raw2 = Py.Ok data2 ->
  data1 !! field_name (cls e1) = data2 !! field_name (cls e1) ->
  _attr_state (self (refresh e1 w1 l).2) = _attr_state (self (refresh e2 w2 l).2) /\
  (refresh e1 w1 l).1 = (refresh e2 w2 l).1 /\
  log (refresh e1 w1 l).2 = log (refresh e2 w2 l).2.
Proof.
  intros Hc Hs Hu1 Hg1 Hu2 Hg2 Hk.
  rewrite !refresh_run, !try_block_run, Hu1, Hg1, Hu2, Hg2, <- Hc, <- Hk.
  destruct (data1 !! field_name (cls e1)) as [v|]; cbn; [| auto].
  destruct (displayed (cls e1) v) as [v'|x] eqn:Hd; cbn; [auto |].
  rewrite (displayed_raise_is_Exception _ _ _ Hd). cbn. auto.
Qed.

End Outcomes.

(** ** Runs of refreshes *)

Section Runs.

Variables DeviceInfo RawSnapshot World : Type.

Implicit Types (api : CocoroAirApi DeviceInfo RawSnapshot World)
  (e : Entity DeviceInfo RawSnapshot World)
  (w : World) (l : list LogRecord) (c : SensorClass)
  (raw : RawSnapshot) (v : Py.val) (x : Py.exn) (n : nat).

Lemma setattr_state_same e : setattr_state e (_attr_state e) = e.
Proof. destruct e; reflexivity. Qed.

(** One refresh keeps a scaled entity's value a level. *)
Lemma refresh_keeps_level e w l :
  is_scaled (cls e) = true ->
  is_level (_attr_state e) ->
  cls (self (refresh e w l).2) = cls e /\
  is_level (_attr_state (self (refresh e w l).2)).
Proof.
  intros Hc Hl.
  destruct (refresh_outcomes _ _ _ e w l)
    as [(v & v' & _ & Hd & ->) | [(x & _ & ->) | (x & _ & _ & ->)]];
    cbn; auto.
  split; [reflexivity |]. exact (displayed_scaled_is_level _ _ _ Hc Hd).
Qed.

(** From its construction on and through any number of refreshes, whatever
    the API client returns or raises, an odor-level, dust-level or
    cleanliness-level entity displays null or an [int]: never a float, a
    boolean or a string. *)
Theorem scaled_entity_always_displays_level c api n w l :
  is_scaled c = true ->
  is_level (_attr_state (self (refresh_n n (init c api) w l))).
Proof.
  intros Hc.
  assert (Hgen : forall n e w l,
             is_scaled (cls e) = true -> is_level (_attr_state e) ->
             is_level (_attr_state (self (refresh_n n e w l)))).
  { clear. intros n. induction n as [| n IH]; intros e w l Hc Hl; cbn.
    - exact Hl.
    - destruct (refresh_keeps_level e w l Hc Hl) as [Hc' Hl'].
      apply IH; [rewrite Hc'; exact Hc | exact Hl']. }
  apply Hgen.
  - destruct c; try discriminate Hc; reflexivity.
  - left. destruct c; reflexivity.
Qed.

(** While the API client is down -- every poll raises the same [Exception]
    -- [n] refreshes leave the entity as it was and log [n] warnings, one a
    refresh. *)
Theorem api_down_keeps_value_and_logs_each_cycle e w l x n :
  (forall w0, exists w1, update (_api e) w0 = (Py.Raise x, w1)) ->
  Py.isinstance_Exception x = true ->
  self (refresh_n n e w l) = e /\
  log (refresh_n n e w l) = l ++ replicate n (warning_of x).
Proof.
  intros Hdown Hx. revert w l.
  induction n as [| n IH]; intros w l; cbn.
  - rewrite app_nil_r. auto.
  - destruct (Hdown w) as [w1 Hu].
    assert (Hr : refresh e w l = (Py.Ok tt, mkState e w1 (l ++ [warning_of x]))).
    { rewrite refresh_run, try_block_run, Hu, Hx. reflexivity. }
    rewrite Hr. cbn. destruct (IH w1 (l ++ [warning_of x])) as [Hs Hl].
    split; [exact Hs |]. rewrite Hl, <- app_assoc. reflexivity.
Qed.

(** The value after a refresh whose poll returned [raw]. *)
Lemma refresh_next_value e w l raw w' :
  update (_api e) w = (Py.Ok raw, w') ->
  self (refresh e w l).2 = setattr_state e (next_value e raw).
Proof.
  intros Hu. rewrite refresh_run, try_block_run, Hu. unfold next_value.
  destruct (get_sensor_data (_api e) raw) as [data|x]; cbn;
    [ destruct (data !! field_name (cls e)) as [v|]; cbn;
      [ destruct (displayed (cls e) v) as [v'|x]; cbn | ] | ];
    rewrite ?setattr_state_same; try reflexivity;
    destruct (Py.isinstance_Exception x); cbn;
    rewrite ?setattr_state_same; reflexivity.
Qed.

Lemma next_value_idempotent e raw :
  next_value (setattr_state e (next_value e raw)) raw = next_value e raw.
Proof.
  unfold next_value. cbn [setattr_state _api cls _attr_state].
  destruct (get_sensor_data (_api e) raw) as [data|x]; [| reflexivity].
  destruct (data !! field_name (cls e)) as [v|]; [| reflexivity].
  destruct (displayed (cls e) v); reflexivity.
Qed.

(** While the device reports one snapshot -- every poll returns [raw] -- the
    value the entity displays after the first refresh is the value it
    displays after every later one. *)
Theorem steady_snapshot_steady_value e w l raw n :
  (forall w0, exists w1, update (_api e) w0 = (Py.Ok raw, w1)) ->
  _attr_state (self (refresh_n (S n) e w l)) =
  _attr_state (self (refresh e w l).2).
Proof.
  intros Hsteady.
  assert (Hfix : forall n e' w l,
             _api e' = _api e ->
             next_value e' raw = _attr_state e' ->
             self (refresh_n n e' w l) = e').
  { clear n w l. intros n. induction n as [| n IH]; intros e' w l Ha Hfix; cbn.
    - reflexivity.
    - destruct (Hsteady w) as [w1 Hu]. rewrite <- Ha in Hu.
      rewrite (refresh_next_value e' w l raw w1 Hu), Hfix, setattr_state_same.
      apply IH; assumption. }
  cbn [refresh_n].
  destruct (Hsteady w) as [w1 Hu].
  rewrite (refresh_next_value e w l raw w1 Hu).
  rewrite Hfix; [reflexivity | reflexivity |].
  rewrite next_value_idempotent. reflexivity.
Qed.

End Runs.

(** ** A polling cycle *)

Section Cycle.

Variables DeviceInfo RawSnapshot World : Type.

Implicit Types (api : CocoroAirApi DeviceInfo RawSnapshot World)
  (e : Entity DeviceInfo RawSnapshot World)
  (p q : Registered DeviceInfo RawSnapshot World)
  (w : World) (raw : RawSnapshot) (i k : nat).

(** Polling the entity at index [i]: the entities afterwards and the
    world. *)
Lemma poll_at p i e :
  entities p !! i = Some e ->
  entities (poll i p).2 = <[i := self (refresh e (reg_world p) (reg_log p)).2]> (entities p) /\
  reg_world (poll i p).2 = (update (_api e) (reg_world p)).2.
Proof.
  intros Hi. unfold poll. rewrite Hi.
  destruct (refresh_outcomes _ _ _ e (reg_world p) (reg_log p))
    as [(v & v' & _ & _ & ->) | [(x & _ & ->) | (x & _ & _ & ->)]];
    cbn; auto.
Qed.

(** The first [k] polls of a cycle over entities that share one client. *)
Lemma poll_prefix p api k :
  Forall (fun e => _api e = api) (entities p) ->
  (k <= length (entities p))%nat ->
  let q := foldl (fun q i => (poll i q).2) p (seq 0 k) in
  length (entities q) = length (entities p) /\
  Forall (fun e => _api e = api) (entities q) /\
  reg_world q = Nat.iter k (fun w => (update api w).2) (reg_world p).
Proof.
  intros Hapi. induction k as [| k IH]; intros Hk; cbn zeta.
  - cbn. auto.
  - rewrite seq_S, foldl_snoc. cbn [Nat.add].
    destruct (IH ltac:(lia)) as (Hlen & Hall & Hw). cbn zeta in *.
    set (q := foldl (fun q i => (poll i q).2) p (seq 0 k)) in *.
    destruct (lookup_lt_is_Some_2 (entities q) k ltac:(lia)) as [e He].
    destruct (poll_at q k e He) as [Hent Hwq].
    assert (Hae : _api e = api).
    { eapply (proj1 (Forall_lookup _ _) Hall). exact He. }
    rewrite Hent, Hwq. split; [| split].
    + rewrite length_insert. exact Hlen.
    + apply Forall_insert; [exact Hall |].
      destruct (refresh_self _ _ _ e (reg_world q) (reg_log q)) as [v ->].
      exact Hae.
    + rewrite Hae, Hw. reflexivity.
Qed.

(** One polling cycle over entities that share one API client calls
    [update()] once per entity: nothing is fetched once and shared, so the
    eight entities of a device make eight polls a cycle. *)
Theorem poll_cycle_polls_once_per_entity p api :
  Forall (fun e => _api e = api) (entities p) ->
  reg_world (poll_all p)
    = Nat.iter (length (entities p)) (fun w => (update api w).2) (reg_world p) /\
  length (entities (poll_all p)) = length (entities p).
Proof.
  intros Hapi.
  destruct (poll_prefix p api (length (entities p)) Hapi (le_n _))
    as (Hlen & _ & Hw).
  split; [exact Hw | exact Hlen].
Qed.

(** The first [k] polls of a cycle while the device reports [raw]. *)
Lemma poll_prefix_steady p api raw k :
  Forall (fun e => _api e = api) (entities p) ->
  (forall w0, exists w1, update api w0 = (Py.Ok raw, w1)) ->
  (k <= length (entities p))%nat ->
  let q := foldl (fun q i => (poll i q).2) p (seq 0 k) in
  length (entities q) = length (entities p) /\
  forall i, entities q !! i =
            if decide (i < k)%nat
            then (fun e => setattr_state e (next_value e raw)) <$> entities p !! i
            else entities p !! i.
Proof.
  intros Hapi Hsteady. induction k as [| k IH]; intros Hk; cbn zeta.
  - cbn. split; [reflexivity |]. intros i. destruct (decide (i < 0)%nat); [lia | reflexivity].
  - rewrite seq_S, foldl_snoc. cbn [Nat.add].
    destruct (IH ltac:(lia)) as (Hlen & Hlook). cbn zeta in *.
    set (q := foldl (fun q i => (poll i q).2) p (seq 0 k)) in *.
    destruct (lookup_lt_is_Some_2 (entities p) k ltac:(lia)) as [e He].
    assert (Heq : entities q !! k = Some e).
    { rewrite Hlook. destruct (decide (k < k)%nat); [lia | exact He]. }
    destruct (poll_at q k e Heq) as [Hent _].
    assert (Hae : _api e = api).
    { eapply (proj1 (Forall_lookup _ _) Hapi). exact He. }
    destruct (Hsteady (reg_world q)) as [w1 Hu]. rewrite <- Hae in Hu.
    rewrite (refresh_next_value _ _ _ e (reg_world q) (reg_log q) raw w1 Hu) in Hent.
    rewrite Hent. split; [rewrite length_insert; exact Hlen |].
    intros i. destruct (decide (i = k)) as [-> | Hne].
    + rewrite list_lookup_insert_eq by lia.
      destruct (decide (k < S k)%nat); [| lia]. rewrite He. reflexivity.
    + rewrite list_lookup_insert_ne by auto. rewrite Hlook.
      destruct (decide (i < k)%nat), (decide (i < S k)%nat); try lia; reflexivity.
Qed.

(** After one polling cycle against a device that keeps reporting the
    snapshot [raw], every registered entity is the object it was with the
    value its class computes from [raw]: an entity whose key is missing or
    whose value cannot be scaled keeps its value and does not disturb the
    others. *)
Theorem poll_cycle_displays_snapshot p api raw i e :
  Forall (fun e => _api e = api) (entities p) ->
  (forall w0, exists w1, update api w0 = (Py.Ok raw, w1)) ->
  entities p !! i = Some e ->
  entities (poll_all p) !! i = Some (setattr_state e (next_value e raw)).
Proof.
  intros Hapi Hsteady Hi.
  destruct (poll_prefix_steady p api raw (length (entities p)) Hapi Hsteady (le_n _))
    as [_ Hlook].
  unfold poll_all. rewrite Hlook, Hi.
  destruct (decide (i < length (entities p))%nat) as [| Hge]; [reflexivity |].
  exfalso. apply Hge. eapply lookup_lt_Some. exact Hi.
Qed.

End Cycle.

(** ** Identifiers across devices *)

Lemma string_app_nil (t : string) : "" +:+ t = t.
Proof. reflexivity. Qed.

Lemma string_app_cons a (s t : string) : String a s +:+ t = String a (s +:+ t).
Proof. reflexivity. Qed.

Lemma string_app_nil_r (s : string) : s +:+ "" = s.
Proof.
  induction s as [| a s IH]; [reflexivity |].
  rewrite string_app_cons, IH. reflexivity.
Qed.

Lemma string_app_length (s t : string) :
  String.length (s +:+ t) = (String.length s + String.length t)%nat.
Proof.
  induction s as [| a s IH]; [reflexivity |].
  rewrite string_app_cons. cbn. rewrite IH. reflexivity.
Qed.

Lemma string_drop_app (t s : string) :
  string_drop (String.length t) (t +:+ s) = s.
Proof.
  induction t as [| a t IH]; [reflexivity |].
  rewrite string_app_cons. cbn. exact IH.
Qed.

(** Of two ways to split one string, the shorter tail ends the longer. *)
Lemma string_app_suffix (a b s1 s2 : string) :
  a +:+ s1 = b +:+ s2 ->
  (String.length s1 <= String.length s2)%nat ->
  exists t, s2 = t +:+ s1 /\ a = b +:+ t.
Proof.
  revert a. induction b as [| ch b IH]; intros a H Hlen.
  - exists a. rewrite !string_app_nil in *. auto.
  - destruct a as [| ch' a].
    + rewrite string_app_nil in H. subst s1.
      rewrite string_app_cons in Hlen. cbn in Hlen.
      rewrite string_app_length in Hlen. lia.
    + rewrite !string_app_cons in H. injection H as -> H.
      destruct (IH a H Hlen) as (t & Ht & Ha).
      exists t. rewrite string_app_cons, <- Ha. auto.
Qed.

(** No suffix of a class ends the suffix of another class. *)
Lemma suffix_ends_suffix c1 c2 (t : string) :
  suffix c2 = t +:+ suffix c1 -> c1 = c2 /\ t = "".
Proof.
  intros H.
  assert (Hl : String.length (suffix c2)
               = (String.length t + String.length (suffix c1))%nat)
    by (rewrite H; apply string_app_length).
  assert (Hd : string_drop (String.length (suffix c2) - String.length (suffix c1))
                 (suffix c2) = suffix c1).
  { replace (String.length (suffix c2) - String.length (suffix c1))%nat
      with (String.length t) by lia.
    rewrite H. apply string_drop_app. }
  clear H.
  destruct c1, c2; vm_compute in Hd; try discriminate Hd;
    (split; [reflexivity |]);
    (destruct t; [reflexivity | cbn in Hl; lia]).
Qed.

(** A device id followed by a class suffix splits in one way only. *)
Lemma id_with_suffix_inj (d1 d2 : string) c1 c2 :
  d1 +:+ suffix c1 = d2 +:+ suffix c2 -> d1 = d2 /\ c1 = c2.
Proof.
  intros H.
  destruct (le_ge_dec (String.length (suffix c1)) (String.length (suffix c2)))
    as [Hle | Hge].
  - destruct (string_app_suffix _ _ _ _ H Hle) as (t & Ht & Ha).
    destruct (suffix_ends_suffix _ _ _ Ht) as [-> ->].
    rewrite string_app_nil_r in Ha. auto.
  - symmetry in H.
    destruct (string_app_suffix _ _ _ _ H Hge) as (t & Ht & Ha).
    destruct (suffix_ends_suffix _ _ _ Ht) as [-> ->].
    rewrite string_app_nil_r in Ha. auto.
Qed.

Lemma NoDup_fmap_eq {A B} (f : A -> B) (l : list A) (a b : A) :
  NoDup (f <$> l) -> a ∈ l -> b ∈ l -> f a = f b -> a = b.
Proof.
  induction l as [| y l IH]; cbn; intros Hnd Ha Hb Hf.
  - inversion Ha.
  - apply NoDup_cons in Hnd as [Hy Hnd].
    apply elem_of_cons in Ha as [-> | Ha]; apply elem_of_cons in Hb as [-> | Hb].
    + reflexivity.
    + exfalso. apply Hy. rewrite Hf. apply list_elem_of_fmap. eauto.
    + exfalso. apply Hy. rewrite <- Hf. apply list_elem_of_fmap. eauto.
    + auto.
Qed.

Section Identifiers.

Variables DeviceInfo RawSnapshot World : Type.

Implicit Types (api : CocoroAirApi DeviceInfo RawSnapshot World)
  (c : SensorClass).

Lemma unique_id_init c api :
  _attr_unique_id (init c api) = device_id api +:+ suffix c.
Proof. destruct c; reflexivity. Qed.

(** The unique identifier of an entity is the device id, an underscore and
    the key its [async_update] reads from the mapping; no two classes read
    the same key. *)
Theorem unique_id_names_the_key_read api c :
  _attr_unique_id (init c api) = device_id api +:+ "_" +:+ field_name c /\
  forall c', field_name c = field_name c' -> c = c'.
Proof.
  split; [destruct c; reflexivity |].
  intros c' H. destruct c, c'; first [reflexivity | discriminate H].
Qed.

(** Two entities with the same unique identifier belong to devices with
    the same device id and are of the same class: across all devices, the
    identifier determines the device and the class. *)
Theorem unique_id_determines_device_and_class api1 api2 c1 c2 :
  _attr_unique_id (init c1 api1) = _attr_unique_id (init c2 api2) ->
  device_id api1 = device_id api2 /\ c1 = c2.
Proof.
  rewrite !unique_id_init. intros H.
  apply id_with_suffix_inj. exact H.
Qed.

(** The entities built for any devices with pairwise different device ids
    have pairwise different unique identifiers. *)
Theorem distinct_devices_have_distinct_unique_ids
    (apis : list (CocoroAirApi DeviceInfo RawSnapshot World)) :
  NoDup ((fun api => device_id api) <$> apis) ->
  NoDup (apis ≫= fun api =>
           (fun c => _attr_unique_id (init c api)) <$> classes).
Proof.
  intros Hnd. apply NoDup_bind.
  - intros a1 a2 y H1 H2 Hy1 Hy2.
    apply list_elem_of_fmap in Hy1 as (c1 & -> & _).
    apply list_elem_of_fmap in Hy2 as (c2 & Hy & _).
    rewrite !unique_id_init in Hy.
    apply id_with_suffix_inj in Hy as [Hd _].
    exact (NoDup_fmap_eq _ _ _ _ Hnd H1 H2 Hd).
  - intros a _. apply NoDup_fmap_2_strong.
    + intros c1 c2 _ _ H. rewrite !unique_id_init in H.
      apply id_with_suffix_inj in H as [_ Hc]. exact Hc.
    + apply (bool_decide_unpack _). reflexivity.
  - exact (NoDup_fmap_1 _ _ Hnd).
Qed.

End Identifiers.

(** ** Levels *)

(** On integer raw levels from 0 to 1000 the level a scaled entity displays
    is an integer that does not decrease when the raw level grows and is not
    negative; up to a raw level of 100 it is at most 3 for the odor level
    and at most 4 for the dust and cleanliness levels. *)
Theorem scaled_level_monotone_and_bounded c z1 z2 :
  is_scaled c = true ->
  0 <= z1 <= z2 ->
  z2 <= 1000 ->
  exists n1 n2,
    displayed c (Py.Int z1) = Py.Ok (Py.Int n1) /\
    displayed c (Py.Int z2) = Py.Ok (Py.Int n2) /\
    0 <= n1 <= n2 /\
    (z2 <= 100 -> n2 <= 4 /\ (c = CocoroAirOdorLevelSensor -> n2 <= 3)).
Proof.
  intros Hc Hz Hmax.
  assert (H33 : forallb (nearest_ok 33) (seqZ 0 1001) = true)
    by (vm_compute; reflexivity).
  assert (H25 : forallb (nearest_ok 25) (seqZ 0 1001) = true)
    by (vm_compute; reflexivity).
  assert (Hmono : forall d, 0 < d ->
            0 <= (2 * z1 + d) / (2 * d) <= (2 * z2 + d) / (2 * d)).
  { intros d Hd. split; [apply Z.div_pos; lia | apply Z.div_le_mono; lia]. }
  destruct c; try discriminate Hc; cbn [displayed scaled].
  - exists ((2 * z1 + 33) / 66), ((2 * z2 + 33) / 66).
    rewrite !(nearest_ok_range 33 H33) by lia.
    split; [reflexivity |]. split; [reflexivity |].
    split; [exact (Hmono 33 ltac:(lia)) |].
    intros H100.
    assert ((2 * z2 + 33) / 66 < 4)
      by (apply Z.div_lt_upper_bound; lia).
    split; [lia | intros _; lia].
  - exists ((2 * z1 + 25) / 50), ((2 * z2 + 25) / 50).
    rewrite !(nearest_ok_range 25 H25) by lia.
    split; [reflexivity |]. split; [reflexivity |].
    split; [exact (Hmono 25 ltac:(lia)) |].
    intros H100.
    assert ((2 * z2 + 25) / 50 < 5)
      by (apply Z.div_lt_upper_bound; lia).
    split; [lia | intros Hcc; discriminate Hcc].
  - exists ((2 * z1 + 25) / 50), ((2 * z2 + 25) / 50).
    rewrite !(nearest_ok_range 25 H25) by lia.
    split; [reflexivity |]. split; [reflexivity |].
    split; [exact (Hmono 25 ltac:(lia)) |].
    intros H100.
    assert ((2 * z2 + 25) / 50 < 5)
      by (apply Z.div_lt_upper_bound; lia).
    split; [lia | intros Hcc; discriminate Hcc].
Qed.

(** A raw level that arrives as the float [z.0] displays what the integer
    [z] displays, for every scaled entity and every [z] from 0 to 1000. *)
Theorem integral_float_level_displays_as_int c z :
  is_scaled c = true ->
  0 <= z <= 1000 ->
  displayed c (Py.Float (Py.float_of_dyadic z 0)) = displayed c (Py.Int z).
Proof.
  intros Hc Hz.
  assert (Hall : forallb (integral_float_ok c) (seqZ 0 1001) = true)
    by (destruct c; try discriminate Hc; vm_compute; reflexivity).
  assert (Hin : In z (seqZ 0 1001))
    by (apply list_elem_of_In, elem_of_seqZ; lia).
  pose proof (proj1 (forallb_forall _ _) Hall z Hin) as H.
  unfold integral_float_ok in H.
  destruct (displayed c (Py.Float (Py.float_of_dyadic z 0))) as [[| | a | |]|];
    try discriminate H.
  destruct (displayed c (Py.Int z)) as [[| | b | |]|]; try discriminate H.
  apply Z.eqb_eq in H. subst b. reflexivity.
Qed.

(** ** The properties on the sample device *)

(** C1 on the sample device: the poll raises an [Exception]; the
    temperature entity keeps displaying 21 and one warning is logged. *)
Lemma C1_witness :
  let x := Py.OtherException "ClientError" in
  let e := Sample.entity CocoroAirTemperatureSensor (Py.Raise x) (Py.Int 21) in
  fetch_raises e 0%nat x /\
  _attr_state (self (refresh e 0%nat []).2) = Py.Int 21 /\
  (refresh e 0%nat []).1 = Py.Ok tt /\
  log (refresh e 0%nat []).2 = [warning_of x].
Proof.
  intros x e.
  assert (Hf : fetch_raises e 0%nat x) by (left; exists 1%nat; reflexivity).
  split; [exact Hf |].
  destruct (C1_fetch_exception_keeps_value _ _ _ e 0%nat [] x Hf)
    as (_ & Hv & Hc & _).
  destruct (Hc eq_refl) as [Hr Hl].
  split; [exact Hv |]. split; [exact Hr | exact Hl].
Defined.

(** C1 without the amendment fails: a poll that raises [CancelledError],
    which is not an [Exception], is not suppressed; [async_update] raises
    it. *)
Lemma C1_counterexample :
  fetch_raises
    (Sample.entity CocoroAirTemperatureSensor (Py.Raise Py.CancelledError) (Py.Int 21))
    0%nat Py.CancelledError /\
  (refresh
     (Sample.entity CocoroAirTemperatureSensor (Py.Raise Py.CancelledError) (Py.Int 21))
     0%nat []).1 = Py.Raise Py.CancelledError.
Proof.
  split; [left; exists 1%nat; reflexivity | reflexivity].
Qed.

(** C2 on the sample device: an odor level of 99 displays 3. *)
Lemma C2_witness :
  _attr_state
    (self (refresh
             (Sample.entity CocoroAirOdorLevelSensor
                (Py.Ok (Sample.snapshot "odor_level" (Py.Int 99))) Py.None_)
             0%nat []).2) = Py.Int 3.
Proof.
  refine (proj1 (proj2 (proj2 (proj2 (proj2
    (C2_refresh_displays_scaled_or_raw _ _ _
       (Sample.entity CocoroAirOdorLevelSensor
          (Py.Ok (Sample.snapshot "odor_level" (Py.Int 99))) Py.None_)
       0%nat [] (Sample.snapshot "odor_level" (Py.Int 99)) 1%nat
       (Sample.snapshot "odor_level" (Py.Int 99)) (Py.Int 99)
       eq_refl eq_refl eq_refl _))))) eq_refl eq_refl).
  discriminate.
Defined.

(** C3 on the sample device: a null temperature replaces the 21 displayed
    before. *)
Lemma C3_witness :
  _attr_state
    (self (refresh
             (Sample.entity CocoroAirTemperatureSensor
                (Py.Ok (Sample.snapshot "temperature" Py.None_)) (Py.Int 21))
             0%nat []).2) = Py.None_.
Proof.
  exact (proj1 (proj1
    (C3_null_field_displays_null _ _ _
       (Sample.entity CocoroAirTemperatureSensor
          (Py.Ok (Sample.snapshot "temperature" Py.None_)) (Py.Int 21))
       0%nat [] (Sample.snapshot "temperature" Py.None_) 1%nat
       (Sample.snapshot "temperature" Py.None_) eq_refl eq_refl) eq_refl)).
Defined.

(** C3 without the amendment fails: the fetch succeeds with a mapping that
    has no ["temperature"] key, and the entity still displays 21, not
    null. *)
Lemma C3_counterexample :
  let data := Sample.snapshot "humidity" (Py.Int 40) in
  let e := Sample.entity CocoroAirTemperatureSensor (Py.Ok data) (Py.Int 21) in
  update (_api e) 0%nat = (Py.Ok data, 1%nat) /\
  get_sensor_data (_api e) data = Py.Ok data /\
  data !! field_name (cls e) = None /\
  _attr_state (self (refresh e 0%nat []).2) = Py.Int 21 /\
  _attr_state (self (refresh e 0%nat []).2) <> Py.None_.
Proof.
  cbv zeta. repeat split. discriminate.
Qed.

(** C5 on the sample device: two polls return a temperature of 22; the
    entity displays 22 after the first refresh and after the second. *)
Lemma C5_witness :
  let data := Sample.snapshot "temperature" (Py.Int 22) in
  let e := Sample.entity CocoroAirTemperatureSensor (Py.Ok data) (Py.Int 21) in
  let st1 := (refresh e 0%nat []).2 in
  let st2 := (refresh (self st1) (world st1) (log st1)).2 in
  _attr_state (self st1) = Py.Int 22 /\
  _attr_state (self st2) = _attr_state (self st1).
Proof.
  intros data e st1 st2. split; [reflexivity |].
  exact (C5_refresh_idempotent _ _ _ e 0%nat [] data 1%nat (world st1) (log st1)
           2%nat eq_refl eq_refl).
Defined.

(** C6 on the sample device: the host holds a temperature and a humidity
    entity and polls the first; the second is untouched. *)
Lemma C6_witness :
  let data := Sample.snapshot "temperature" (Py.Int 22) in
  let e0 := Sample.entity CocoroAirTemperatureSensor (Py.Ok data) (Py.Int 21) in
  let e1 := Sample.entity CocoroAirHumiditySensor (Py.Ok data) (Py.Int 40) in
  let p := mkRegistered [e0; e1] 0%nat [] in
  entities p !! 0%nat = Some e0 /\
  entities (poll 0 p).2 !! 0%nat = Some (setattr_state e0 (Py.Int 22)) /\
  entities (poll 0 p).2 !! 1%nat = Some e1.
Proof.
  intros data e0 e1 p.
  assert (H0 : entities p !! 0%nat = Some e0) by reflexivity.
  destruct (C6_refresh_changes_own_value_only _ _ _ p 0%nat e0 H0)
    as (Hi & _ & _ & _ & _ & _ & _ & _ & _ & Hj).
  split; [exact H0 |]. split; [exact Hi |].
  rewrite (Hj 1%nat) by discriminate. reflexivity.
Defined.

(** C7 on the sample device: the callback receives the eight entities. *)
Lemma C7_witness :
  let api := Sample.api (Py.Ok ∅) in
  (async_setup_entry "cocoro_air" (Sample.hass (Py.Ok ∅))
     (mkConfigEntry "entry1") Sample.add_entities []).2
  = (fun c => init c api) <$> classes.
Proof.
  intros api.
  destruct (proj1 (C7_setup_registers_eight_entities _ _ _ "cocoro_air" _
                     (Sample.hass (Py.Ok ∅)) (mkConfigEntry "entry1")
                     Sample.add_entities [])
              _ _ api eq_refl eq_refl eq_refl) as [Heq _].
  rewrite Heq. reflexivity.
Defined.

(** C9 on the sample device: a dust level of 12.5 has the quotient 0.5 and
    displays 0. *)
Lemma C9_witness :
  let v := Py.Float (Py.float_of_dyadic 25 (-1)) in
  let e := Sample.entity CocoroAirDustLevelSensor
             (Py.Ok (Sample.snapshot "dust_level" v)) Py.None_ in
  Py.truediv v 25 = Py.Ok (Py.Float (Py.float_of_dyadic 1 (-1))) /\
  halfway (Py.float_of_dyadic 1 (-1)) 0 /\
  _attr_state (self (refresh e 0%nat []).2) = Py.Int 0.
Proof.
  intros v e.
  assert (Hq : Py.truediv v 25 = Py.Ok (Py.Float (Py.float_of_dyadic 1 (-1))))
    by reflexivity.
  assert (Hh : halfway (Py.float_of_dyadic 1 (-1)) 0)
    by (split; reflexivity).
  split; [exact Hq |]. split; [exact Hh |].
  exact (proj1
    (C9_halfway_quotient_rounds_to_even _ _ _ e 0%nat []
       (Sample.snapshot "dust_level" v) 1%nat (Sample.snapshot "dust_level" v) v
       eq_refl eq_refl eq_refl)
    25 _ 0 (or_intror (or_introl (conj eq_refl eq_refl))) Hq Hh).
Defined.

(** C10 on the sample device: two temperature entities displaying 1 and 7
    are refreshed with a temperature of 22 and both display 22. *)
Lemma C10_witness :
  let data := Sample.snapshot "temperature" (Py.Int 22) in
  let e1 := Sample.entity CocoroAirTemperatureSensor (Py.Ok data) (Py.Int 1) in
  let e2 := Sample.entity CocoroAirTemperatureSensor (Py.Ok data) (Py.Int 7) in
  _attr_state (self (refresh e1 0%nat []).2) = Py.Int 22 /\
  _attr_state (self (refresh e1 0%nat []).2) =
  _attr_state (self (refresh e2 5%nat []).2).
Proof.
  intros data e1 e2. split; [reflexivity |].
  exact (proj1
    (C10_refresh_determined_by_snapshot _ _ _ e1 e2 0%nat 5%nat [] []
       data data 1%nat 6%nat data
       eq_refl eq_refl eq_refl eq_refl eq_refl eq_refl eq_refl)).
Defined.

(** A dust level that is a string: the entity keeps displaying 2. *)
Lemma scaled_entity_keeps_value_on_bad_raw_witness :
  let v := Py.Str "high" in
  let e := Sample.entity CocoroAirDustLevelSensor
             (Py.Ok (Sample.snapshot "dust_level" v)) (Py.Int 2) in
  round_div v 25 = Py.Raise Py.TypeError /\
  _attr_state (self (refresh e 0%nat []).2) = Py.Int 2 /\
  log (refresh e 0%nat []).2 = [warning_of Py.TypeError].
Proof.
  intros v e. split; [reflexivity |].
  destruct (scaled_entity_keeps_value_on_bad_raw _ _ _ e 0%nat []
              (Sample.snapshot "dust_level" v) 1%nat
              (Sample.snapshot "dust_level" v) v Py.TypeError
              eq_refl eq_refl eq_refl
              (or_intror (or_introl (conj eq_refl eq_refl))))
    as (Hs & _ & Hl); [discriminate | reflexivity |].
  rewrite Hs. split; [reflexivity | exact Hl].
Defined.

(** An odor level of 50 displays 2. *)
Lemma displayed_nearest_integer_witness :
  0 <= 50 <= 1000 /\
  displayed CocoroAirOdorLevelSensor (Py.Int 50) = Py.Ok (Py.Int 2).
Proof.
  assert (H : 0 <= 50 <= 1000) by (split; discriminate).
  split; [exact H |].
  exact (proj1 (displayed_nearest_integer 50 H)).
Defined.

(** A poll that raises [CancelledError]: what leaves [async_update] is that
    exception, raised by the fetch; entity and log are untouched. *)
Lemma refresh_raises_only_api_base_exceptions_witness :
  let e := Sample.entity CocoroAirHumiditySensor (Py.Raise Py.CancelledError)
             (Py.Int 40) in
  (refresh e 0%nat []).1 = Py.Raise Py.CancelledError /\
  fetch_raises e 0%nat Py.CancelledError /\
  self (refresh e 0%nat []).2 = e /\
  log (refresh e 0%nat []).2 = [].
Proof.
  intros e.
  assert (H : (refresh e 0%nat []).1 = Py.Raise Py.CancelledError) by reflexivity.
  destruct (refresh_raises_only_api_base_exceptions _ _ _ e 0%nat [] _ H)
    as (_ & Hf & Hs & Hl).
  auto.
Defined.

(** A mapping without the ["temperature"] key: the log grows by the warning
    for the [KeyError] and the entity is the one it was. *)
Lemma refresh_logs_only_when_value_kept_witness :
  let e := Sample.entity CocoroAirTemperatureSensor
             (Py.Ok (Sample.snapshot "humidity" (Py.Int 40))) (Py.Int 21) in
  log (refresh e 0%nat []).2 <> [] /\
  exists x, log (refresh e 0%nat []).2 = [] ++ [warning_of x] /\
            Py.isinstance_Exception x = true /\
            (refresh e 0%nat []).1 = Py.Ok tt /\
            self (refresh e 0%nat []).2 = e.
Proof.
  intros e.
  assert (H : log (refresh e 0%nat []).2 <> []) by discriminate.
  split; [exact H |].
  exact (refresh_logs_only_when_value_kept _ _ _ e 0%nat [] H).
Defined.

(** A temperature of 22 replaces the 21 displayed: nothing is logged. *)
Lemma refresh_changed_value_is_fetched_witness :
  let e := Sample.entity CocoroAirTemperatureSensor
             (Py.Ok (Sample.snapshot "temperature" (Py.Int 22))) (Py.Int 21) in
  _attr_state (self (refresh e 0%nat []).2) <> _attr_state e /\
  (refresh e 0%nat []).1 = Py.Ok tt /\
  log (refresh e 0%nat []).2 = [].
Proof.
  intros e.
  assert (H : _attr_state (self (refresh e 0%nat []).2) <> _attr_state e)
    by discriminate.
  destruct (refresh_changed_value_is_fetched _ _ _ e 0%nat [] H) as (Hr & Hl & _).
  auto.
Defined.

(** Two mappings with the same temperature and different humidity (one a
    string): the two temperature entities end alike. *)
Lemma refresh_reads_own_key_only_witness :
  let d1 := <["humidity" := Py.Int 40]> (Sample.snapshot "temperature" (Py.Int 22)) in
  let d2 := <["humidity" := Py.Str "n/a"]> (Sample.snapshot "temperature" (Py.Int 22)) in
  let e1 := Sample.entity CocoroAirTemperatureSensor (Py.Ok d1) (Py.Int 21) in
  let e2 := Sample.entity CocoroAirTemperatureSensor (Py.Ok d2) (Py.Int 21) in
  d1 <> d2 /\
  _attr_state (self (refresh e1 0%nat []).2) = Py.Int 22 /\
  _attr_state (self (refresh e1 0%nat []).2) =
  _attr_state (self (refresh e2 3%nat []).2).
Proof.
  intros d1 d2 e1 e2.
  split.
  { intros H. apply (f_equal (fun d => d !! "humidity")) in H. discriminate H. }
  split; [reflexivity |].
  exact (proj1
    (refresh_reads_own_key_only _ _ _ e1 e2 0%nat 3%nat [] d1 d2 1%nat 4%nat d1 d2
       eq_refl eq_refl eq_refl eq_refl eq_refl eq_refl eq_refl)).
Defined.

(** Three refreshes of an odor-level entity on a device that reports the
    odor level as a string: it displays null throughout. *)
Lemma scaled_entity_always_displays_level_witness :
  is_scaled CocoroAirOdorLevelSensor = true /\
  is_level
    (_attr_state
       (self (refresh_n 3
                (init CocoroAirOdorLevelSensor
                   (Sample.api (Py.Ok (Sample.snapshot "odor_level" (Py.Str "high")))))
                0%nat []))).
Proof.
  split; [reflexivity |].
  exact (scaled_entity_always_displays_level _ _ _ CocoroAirOdorLevelSensor
           (Sample.api (Py.Ok (Sample.snapshot "odor_level" (Py.Str "high"))))
           3%nat 0%nat [] eq_refl).
Defined.

(** Three refreshes while every poll raises: the 21 stays and three
    warnings are logged. *)
Lemma api_down_keeps_value_and_logs_each_cycle_witness :
  let x := Py.OtherException "ClientError" in
  let e := Sample.entity CocoroAirTemperatureSensor (Py.Raise x) (Py.Int 21) in
  self (refresh_n 3 e 0%nat []) = e /\
  log (refresh_n 3 e 0%nat []) = [warning_of x; warning_of x; warning_of x].
Proof.
  intros x e.
  exact (api_down_keeps_value_and_logs_each_cycle _ _ _ e 0%nat [] x 3%nat
           (fun w0 => ex_intro _ (S w0) eq_refl) eq_refl).
Defined.

(** Three refreshes on a device that keeps reporting a dust level of 60:
    the entity displays 2 after the first and after the third. *)
Lemma steady_snapshot_steady_value_witness :
  let data := Sample.snapshot "dust_level" (Py.Int 60) in
  let e := Sample.entity CocoroAirDustLevelSensor (Py.Ok data) Py.None_ in
  _attr_state (self (refresh e 0%nat []).2) = Py.Int 2 /\
  _attr_state (self (refresh_n 3 e 0%nat [])) =
  _attr_state (self (refresh e 0%nat []).2).
Proof.
  intros data e. split; [reflexivity |].
  exact (steady_snapshot_steady_value _ _ _ e 0%nat [] data 2%nat
           (fun w0 => ex_intro _ (S w0) eq_refl)).
Defined.

(** Two clients of the sample device: equal identifiers, equal device ids
    and classes. *)
Lemma unique_id_determines_device_and_class_witness :
  let api1 := Sample.api (Py.Ok ∅) in
  let api2 := Sample.api (Py.Raise Py.ValueError) in
  _attr_unique_id (init CocoroAirPM25Sensor api1) = "abc123_pm25" /\
  _attr_unique_id (init CocoroAirPM25Sensor api1)
    = _attr_unique_id (init CocoroAirPM25Sensor api2) /\
  device_id api1 = device_id api2.
Proof.
  intros api1 api2.
  assert (H : _attr_unique_id (init CocoroAirPM25Sensor api1)
              = _attr_unique_id (init CocoroAirPM25Sensor api2)) by reflexivity.
  split; [reflexivity |]. split; [exact H |].
  exact (proj1 (unique_id_determines_device_and_class _ _ _ api1 api2
                  CocoroAirPM25Sensor CocoroAirPM25Sensor H)).
Defined.

(** Odor levels 20 and 90 display 1 and 3. *)
Lemma scaled_level_monotone_and_bounded_witness :
  displayed CocoroAirOdorLevelSensor (Py.Int 20) = Py.Ok (Py.Int 1) /\
  displayed CocoroAirOdorLevelSensor (Py.Int 90) = Py.Ok (Py.Int 3) /\
  exists n1 n2,
    displayed CocoroAirOdorLevelSensor (Py.Int 20) = Py.Ok (Py.Int n1) /\
    displayed CocoroAirOdorLevelSensor (Py.Int 90) = Py.Ok (Py.Int n2) /\
    0 <= n1 <= n2 /\
    (90 <= 100 -> n2 <= 4 /\
       (CocoroAirOdorLevelSensor = CocoroAirOdorLevelSensor -> n2 <= 3)).
Proof.
  split; [reflexivity |]. split; [reflexivity |].
  refine (scaled_level_monotone_and_bounded CocoroAirOdorLevelSensor 20 90
            eq_refl (conj _ _) _); discriminate.
Defined.

(** An odor level of 99.0 displays 3, as 99 does. *)
Lemma integral_float_level_displays_as_int_witness :
  displayed CocoroAirOdorLevelSensor (Py.Int 99) = Py.Ok (Py.Int 3) /\
  displayed CocoroAirOdorLevelSensor (Py.Float (Py.float_of_dyadic 99 0))
    = displayed CocoroAirOdorLevelSensor (Py.Int 99).
Proof.
  split; [reflexivity |].
  refine (integral_float_level_displays_as_int CocoroAirOdorLevelSensor 99
            eq_refl (conj _ _)); discriminate.
Defined.

(** One cycle over the eight entities of the sample device: eight polls. *)
Lemma poll_cycle_polls_once_per_entity_witness :
  Forall (fun e => _api e = Sample.api (Py.Ok Reading.data))
    (entities Reading.registered) /\
  reg_world (poll_all Reading.registered) = 8%nat /\
  length (entities (poll_all Reading.registered)) = 8%nat.
Proof.
  assert (H : Forall (fun e => _api e = Sample.api (Py.Ok Reading.data))
                (entities Reading.registered))
    by (repeat constructor).
  split; [exact H |].
  exact (poll_cycle_polls_once_per_entity _ _ _ Reading.registered
           (Sample.api (Py.Ok Reading.data)) H).
Defined.

(** One cycle on the full reading: the values displayed, and the
    odor-level entity at index 5. *)
Lemma poll_cycle_displays_snapshot_witness :
  (fun e => _attr_state e) <$> entities (poll_all Reading.registered)
    = [ Py.Float (Py.float_of_dyadic 45 (-1)); Py.Int 45; Py.Bool true; Py.Int 8;
        Py.Int 1200; Py.Int 3; Py.Int 0; Py.None_ ] /\
  entities (poll_all Reading.registered) !! 5%nat
    = Some (setattr_state
              (init CocoroAirOdorLevelSensor (Sample.api (Py.Ok Reading.data)))
              (Py.Int 3)).
Proof.
  split; [reflexivity |].
  exact (poll_cycle_displays_snapshot _ _ _ Reading.registered
           (Sample.api (Py.Ok Reading.data)) Reading.data 5%nat
           (init CocoroAirOdorLevelSensor (Sample.api (Py.Ok Reading.data)))
           ltac:(repeat constructor)
           (fun w0 => ex_intro _ (S w0) eq_refl) eq_refl).
Defined.

(** Two devices, the id of one a prefix of the other's: sixteen different
    identifiers. *)
Lemma distinct_devices_have_distinct_unique_ids_witness :
  NoDup ((fun api => device_id api) <$> [Sample.api (Py.Ok Reading.data); Reading.other_api]) /\
  NoDup ([Sample.api (Py.Ok Reading.data); Reading.other_api] ≫= fun api =>
           (fun c => _attr_unique_id (init c api)) <$> classes).
Proof.
  assert (H : NoDup ((fun api => device_id api) <$>
                     [Sample.api (Py.Ok Reading.data); Reading.other_api])).
  { apply NoDup_cons. split.
    - intros Hin. apply list_elem_of_singleton in Hin. discriminate Hin.
    - apply NoDup_singleton. }
  split; [exact H |].
  exact (distinct_devices_have_distinct_unique_ids _ _ _ _ H).
Defined.
